(** * clink: the Windows terminal translation layer (win_terminal) and the
      deprecated Lua subprocess helper (lua_execute)

    A shallow embedding of [win_terminal_in], [win_terminal_out] and
    [win_terminal] (terminal/src/win_terminal.cpp) and of [next_line] /
    [lua_execute] (clink/lua/src/lua_exec.cpp), followed by the properties
    the specification states about them.

    Conventions.  C integers are [Z]; an assignment to an [unsigned char]
    is written [to_uchar], a cast to [wchar_t] (16 bits on Windows) is
    [to_wchar], a cast to [unsigned] is [to_unsigned].  Arrays are lists
    read with [!!] and updated with [<[i:=x]>].  The host console is an
    explicit record threaded through every call that touches it. *)

From Stdlib Require Import ZArith Lia Ascii String.
From stdpp Require Import list gmap.

Local Open Scope Z_scope.

(** ** Integer conversions *)

Definition to_uchar (x : Z) : Z := x mod 256.
Definition to_wchar (x : Z) : Z := x mod 65536.
Definition to_unsigned (x : Z) : Z := x mod 4294967296.

(** [!!x] and the truth value of a C integer. *)
Definition truthy (x : Z) : bool := negb (x =? 0).
Definition of_bool (b : bool) : Z := if b then 1 else 0.

(** ** Windows SDK constants used by the sources *)

Definition KEY_EVENT : Z := 0x0001.
Definition WINDOW_BUFFER_SIZE_EVENT : Z := 0x0004.
Definition ENABLE_WINDOW_INPUT : Z := 0x0008.

Definition RIGHT_ALT_PRESSED : Z := 0x0001.
Definition LEFT_ALT_PRESSED : Z := 0x0002.
Definition RIGHT_CTRL_PRESSED : Z := 0x0004.
Definition LEFT_CTRL_PRESSED : Z := 0x0008.
Definition SHIFT_PRESSED : Z := 0x0010.
Definition ENHANCED_KEY : Z := 0x0100.

Definition VK_MENU : Z := 0x12.
Definition VK_PRIOR : Z := 0x21.
Definition VK_NEXT : Z := 0x22.
Definition VK_END : Z := 0x23.
Definition VK_HOME : Z := 0x24.
Definition VK_LEFT : Z := 0x25.
Definition VK_UP : Z := 0x26.
Definition VK_RIGHT : Z := 0x27.
Definition VK_DOWN : Z := 0x28.
Definition VK_INSERT : Z := 0x2D.
Definition VK_DELETE : Z := 0x2E.

(** ** UTF-8 and UTF-16 *)

Module Utf.

(** The UTF-8 encoding of a Unicode scalar value (RFC 3629); this is the
    reference the claims about encoded input are compared with. *)
Definition utf8_encode (c : Z) : list Z :=
  if c <? 0x80 then [c]
  else if c <? 0x800 then
    [Z.lor 0xC0 (Z.shiftr c 6); Z.lor 0x80 (Z.land c 0x3F)]
  else if c <? 0x10000 then
    [Z.lor 0xE0 (Z.shiftr c 12);
     Z.lor 0x80 (Z.land (Z.shiftr c 6) 0x3F);
     Z.lor 0x80 (Z.land c 0x3F)]
  else
    [Z.lor 0xF0 (Z.shiftr c 18);
     Z.lor 0x80 (Z.land (Z.shiftr c 12) 0x3F);
     Z.lor 0x80 (Z.land (Z.shiftr c 6) 0x3F);
     Z.lor 0x80 (Z.land c 0x3F)].

Definition is_lead_surrogate (u : Z) : bool := Z.land u 0xFC00 =? 0xD800.
Definition is_trail_surrogate (u : Z) : bool := Z.land u 0xFC00 =? 0xDC00.

Definition compose_surrogates (hi lo : Z) : Z :=
  0x10000 + Z.shiftl (Z.land hi 0x3FF) 10 + Z.land lo 0x3FF.

(** The scalars of a NUL-terminated UTF-16 string, composing surrogate
    pairs.  A surrogate that has no partner is passed on as it is. *)
Fixpoint utf16_scalars (wc : list Z) : list Z :=
  match wc with
  | [] => []
  | u :: rest =>
      if u =? 0 then []
      else if is_lead_surrogate u then
        match rest with
        | lo :: rest' =>
            if is_trail_surrogate lo
            then compose_surrogates u lo :: utf16_scalars rest'
            else u :: utf16_scalars rest
        | [] => [u]
        end
      else u :: utf16_scalars rest
  end.

(** Modelled from the spec: [to_utf8] (core/str.h) is not among the
    sources.  The specification says that values of 0x80 and above are
    converted from the host's UTF-16 representation, including
    surrogate-pair composition, to UTF-8, and that a full transcode buffer
    truncates the newest data.  The result is the bytes written to [out];
    the C function returns their number. *)
Definition to_utf8 (max_count : Z) (utf16 : list Z) : list Z :=
  take (Z.to_nat max_count) (flat_map utf8_encode (utf16_scalars utf16)).

End Utf.

(** ** The input ring buffer: [win_terminal_in::push] and [pop] *)

(** Modelled from the spec: the class declaration (win_terminal.h) is not
    among the sources.  The specification gives the input buffer as a
    fixed power-of-two-sized byte buffer with a head index and a count;
    [sizeof_array(m_buffer)] is the length of the list. *)
Record win_terminal_in := mk_in {
  m_stdin : bool;           (* handle held (not nullptr) *)
  m_prev_mode_in : Z;
  m_buffer : list Z;
  m_buffer_head : Z;
  m_buffer_count : Z;
}.

Definition sizeof_m_buffer (t : win_terminal_in) : Z :=
  Z.of_nat (length (m_buffer t)).

(** [static const unsigned char mask = sizeof_array(m_buffer) - 1]. *)
Definition mask (t : win_terminal_in) : Z := to_uchar (sizeof_m_buffer t - 1).

Definition set_buffer (t : win_terminal_in) (buf : list Z) (count : Z)
  : win_terminal_in :=
  mk_in (m_stdin t) (m_prev_mode_in t) buf (m_buffer_head t) count.

(** [for (int i = 0; i < n; ++i, ++index) m_buffer[index & mask] = utf8[i]]. *)
Fixpoint store_bytes (msk : Z) (buf : list Z) (index : Z) (utf8 : list Z)
  : list Z :=
  match utf8 with
  | [] => buf
  | b :: utf8' =>
      store_bytes msk (<[Z.to_nat (Z.land index msk) := to_uchar b]> buf)
                  (index + 1) utf8'
  end.

Definition push (value : Z) (t : win_terminal_in) : win_terminal_in :=
  if sizeof_m_buffer t <=? m_buffer_count t then t
  else
    let index := m_buffer_head t + m_buffer_count t in
    if value <? 0x80 then
      set_buffer t
        (<[Z.to_nat (Z.land index (mask t)) := to_uchar value]> (m_buffer t))
        (m_buffer_count t + 1)
    else
      let wc := [to_wchar value; 0] in
      let utf8 := Utf.to_utf8 8 wc in
      let n := Z.of_nat (length utf8) in
      let buf :=
        if n <=? mask t - m_buffer_count t
        then store_bytes (mask t) (m_buffer t) index utf8
        else m_buffer t in
      set_buffer t buf (m_buffer_count t + n).

(** [pop] returns the byte and the buffer after it; 0xff when empty. *)
Definition pop (t : win_terminal_in) : Z * win_terminal_in :=
  if m_buffer_count t =? 0 then (0xff, t)
  else
    let value := default 0 (m_buffer t !! Z.to_nat (m_buffer_head t)) in
    (value,
     mk_in (m_stdin t) (m_prev_mode_in t) (m_buffer t)
           (Z.land (m_buffer_head t + 1) (sizeof_m_buffer t - 1))
           (m_buffer_count t - 1)).

(** [win_terminal_in::read]. *)
Definition read (t : win_terminal_in) : Z * win_terminal_in :=
  let '(c, t') := pop t in
  if negb (c =? 0xff) then (c, t') else (0x04, t').

(** [n] successive calls of [pop], and the bytes they return. *)
Fixpoint pop_n (n : nat) (t : win_terminal_in) : list Z * win_terminal_in :=
  match n with
  | O => ([], t)
  | S n' =>
      let '(c, t1) := pop t in
      let '(cs, t2) := pop_n n' t1 in
      (c :: cs, t2)
  end.

(** The bytes waiting in the buffer, in the order [pop] hands them out. *)
Definition pending (t : win_terminal_in) : list Z :=
  fst (pop_n (Z.to_nat (m_buffer_count t)) t).

(** A buffer as the class keeps it between calls: a power-of-two number of
    slots (at most 128, so that the mask and the count fit an unsigned
    char whatever the header declares them as) and the head inside the
    array. *)
Definition buffer_ok (t : win_terminal_in) : Prop :=
  (exists k : Z, 0 <= k <= 7 /\ sizeof_m_buffer t = 2 ^ k)
  /\ 0 <= m_buffer_head t < sizeof_m_buffer t
  /\ 0 <= m_buffer_count t.

(** ** The host console *)

Definition chr (a : Ascii.ascii) : Z := Z.of_N (Ascii.N_of_ascii a).

(** [KEY_EVENT_RECORD]: [UnicodeChar] is a WCHAR, the key and scan codes
    are WORDs, [dwControlKeyState] a DWORD. *)
Record KEY_EVENT_RECORD := mk_key {
  bKeyDown : bool;
  wVirtualKeyCode : Z;
  wVirtualScanCode : Z;
  UnicodeChar : Z;
  dwControlKeyState : Z;
}.

Record INPUT_RECORD := mk_record {
  EventType : Z;
  KeyEvent : KEY_EVENT_RECORD;
}.

(** What the console API calls of the sources read and change: the modes
    of the input and of the screen-buffer handle, the screen-buffer
    information, the queue [ReadConsoleInputW] takes records from, the
    characters handed over for display and the modules resident in the
    process ([GetModuleHandle(name) != nullptr]). *)
Record host_console := mk_host {
  in_mode : Z;
  out_mode : Z;
  wAttributes : Z;
  dwSize_X : Z;
  dwSize_Y : Z;
  srWindow_Top : Z;
  srWindow_Bottom : Z;
  input_queue : list INPUT_RECORD;
  written : list Z;
  resident : string -> bool;
}.

Definition SetConsoleMode_in (mode : Z) (h : host_console) : host_console :=
  mk_host mode (out_mode h) (wAttributes h) (dwSize_X h) (dwSize_Y h)
          (srWindow_Top h) (srWindow_Bottom h) (input_queue h) (written h)
          (resident h).

Definition SetConsoleMode_out (mode : Z) (h : host_console) : host_console :=
  mk_host (in_mode h) mode (wAttributes h) (dwSize_X h) (dwSize_Y h)
          (srWindow_Top h) (srWindow_Bottom h) (input_queue h) (written h)
          (resident h).

Definition SetConsoleTextAttribute (attr : Z) (h : host_console)
  : host_console :=
  mk_host (in_mode h) (out_mode h) attr (dwSize_X h) (dwSize_Y h)
          (srWindow_Top h) (srWindow_Bottom h) (input_queue h) (written h)
          (resident h).

Definition set_input_queue (q : list INPUT_RECORD) (h : host_console)
  : host_console :=
  mk_host (in_mode h) (out_mode h) (wAttributes h) (dwSize_X h) (dwSize_Y h)
          (srWindow_Top h) (srWindow_Bottom h) q (written h) (resident h).

Definition WriteConsoleW (chars : list Z) (h : host_console) : host_console :=
  mk_host (in_mode h) (out_mode h) (wAttributes h) (dwSize_X h) (dwSize_Y h)
          (srWindow_Top h) (srWindow_Bottom h) (input_queue h)
          (written h ++ chars) (resident h).

(** The file-scope state of win_terminal.cpp: the two settings, the last
    buffer size seen, and how often [on_terminal_resize] (declared, defined
    elsewhere) has been called. *)
Record globals := mk_globals {
  g_altgr : bool;
  g_ansi : bool;
  g_last_buffer_size : Z;
  resize_calls : nat;
}.

Definition set_last_buffer_size (i : Z) (g : globals) : globals :=
  mk_globals (g_altgr g) (g_ansi g) i (resize_calls g).

Definition on_terminal_resize (g : globals) : globals :=
  mk_globals (g_altgr g) (g_ansi g) (g_last_buffer_size g)
             (S (resize_calls g)).

(** ** The input encoder: [win_terminal_in::read_console] *)

Definition CTRL_PRESSED : Z := Z.lor LEFT_CTRL_PRESSED RIGHT_CTRL_PRESSED.

Definition enhanced_vks : list Z :=
  [VK_UP; VK_DOWN; VK_LEFT; VK_RIGHT; VK_HOME; VK_END;
   VK_INSERT; VK_DELETE; VK_PRIOR; VK_NEXT].

(** Rows of [mod_map]: scan code, normal, shifted. *)
Definition mod_map : list (Z * Z * Z) :=
  [ (chr "H", chr "A", chr "a");
    (chr "P", chr "B", chr "b");
    (chr "K", chr "D", chr "d");
    (chr "M", chr "C", chr "c");
    (chr "R", chr "2", chr "w");
    (chr "S", chr "3", chr "e");
    (chr "G", chr "1", chr "q");
    (chr "O", chr "4", chr "r");
    (chr "I", chr "5", chr "t");
    (chr "Q", chr "6", chr "y") ]%char.

(** The first row whose scan code is [key_sc]. *)
Fixpoint mod_map_row (rows : list (Z * Z * Z)) (key_sc : Z)
  : option (Z * Z * Z) :=
  match rows with
  | [] => None
  | (sc, nrml, shft) :: rows' =>
      if negb (sc =? key_sc) then mod_map_row rows' key_sc
      else Some (sc, nrml, shft)
  end.

(** [#define CONTAINS(l, r) (unsigned)(key_vk - l) <= (r - l)]. *)
Definition CONTAINS (key_vk l r : Z) : bool :=
  to_unsigned (key_vk - l) <=? r - l.

(** The value the Ctrl chain leaves in [key_vk]; [None] where the chain
    ends in [return read_console()]. *)
Definition ctrl_key_vk (key_vk : Z) : option Z :=
  if CONTAINS key_vk (chr "A") (chr "Z") then Some (key_vk - (chr "A" - 1))
  else if CONTAINS key_vk 0xdb 0xdd then Some (key_vk - (0xdb - 0x1b))
  else if key_vk =? 0x32 then Some 0
  else if key_vk =? 0x36 then Some 0x1e
  else if key_vk =? 0xbd then Some 0x1f
  else None.

(** The part of [read_console] that handles one key record (from
    [const KEY_EVENT_RECORD* key = ...] to the end of the function).
    [None] stands for the paths that poll again ([read_console(); return]);
    [Some t] is the buffer after the pushes. *)
Definition read_console_key (altgr_setting : bool) (key : KEY_EVENT_RECORD)
    (t : win_terminal_in) : option win_terminal_in :=
  let key_char := UnicodeChar key in
  let key_vk := wVirtualKeyCode key in
  let key_sc := wVirtualScanCode key in
  let key_flags := dwControlKeyState key in
  if negb (bKeyDown key) then
    if (key_vk =? VK_MENU) && truthy key_char then Some (push key_char t)
    else None
  else
    let altgr_sub :=
      truthy (Z.land key_flags LEFT_ALT_PRESSED)
      && truthy (Z.land key_flags CTRL_PRESSED)
      && truthy key_char in
    let '(altgr_sub, key_char) :=
      if altgr_sub && negb altgr_setting then (false, 0)
      else (altgr_sub, key_char) in
    let alt :=
      if negb altgr_sub
      then truthy (Z.land key_flags
                          (Z.lor LEFT_ALT_PRESSED RIGHT_ALT_PRESSED))
      else false in
    if key_char =? 0 then
      let key_flags :=
        if existsb (Z.eqb key_vk) enhanced_vks
        then Z.lor key_flags ENHANCED_KEY
        else key_flags in
      if truthy (Z.land key_flags ENHANCED_KEY) then
        match mod_map_row mod_map key_sc with
        | Some (_, nrml, shft) =>
            let j := 1 + of_bool (truthy (Z.land key_flags SHIFT_PRESSED)) in
            let t := push 0x1b t in
            let t := push (if truthy (Z.land key_flags CTRL_PRESSED)
                           then chr "O" else chr "[") t in
            Some (push (if j =? 1 then nrml else shft) t)
        | None => None
        end
      else if negb (truthy (Z.land key_flags CTRL_PRESSED)) then None
      else
        match ctrl_key_vk key_vk with
        | Some _ => Some (push key_char t)
        | None => None
        end
    else if (key_char =? chr "009") && (m_buffer_count t =? 0)
            && truthy (Z.land key_flags SHIFT_PRESSED) then
      Some (push (chr "Z") (push (chr "[") (push 0x1b t)))
    else
      let t := if alt then push 0x1b t else t in
      Some (push key_char t).

(** The value [read_console] compares with [g_last_buffer_size]. *)
Definition buffer_size_word (h : host_console) : Z :=
  to_unsigned (Z.lor (to_unsigned (Z.shiftl (dwSize_X h) 16))
                     (to_unsigned (srWindow_Bottom h - srWindow_Top h + 1))).

(** [read_console]: every recursive call of the source spends one unit of
    [fuel]; [None] when the fuel is spent or when [ReadConsoleInputW]
    finds no record in the queue (the call would block). *)
Fixpoint read_console (fuel : nat) (g : globals) (h : host_console)
    (t : win_terminal_in) : option (globals * host_console * win_terminal_in) :=
  match fuel with
  | O => None
  | S fuel' =>
      let i := buffer_size_word h in
      if negb (truthy (g_last_buffer_size g))
         || negb (g_last_buffer_size g =? i) then
        let g := if truthy (g_last_buffer_size g)
                 then on_terminal_resize g else g in
        read_console fuel' (set_last_buffer_size i g) h t
      else
        match input_queue h with
        | [] => None
        | record :: queue =>
            let h := set_input_queue queue h in
            if negb (EventType record =? KEY_EVENT) then
              read_console fuel' g h t
            else if EventType record =? WINDOW_BUFFER_SIZE_EVENT then
              let g := on_terminal_resize g in
              let g := set_last_buffer_size
                         (to_unsigned (Z.lor (to_unsigned
                                                (Z.shiftl (dwSize_X h) 16))
                                             (dwSize_Y h))) g in
              read_console fuel' g h t
            else
              match read_console_key (g_altgr g) (KeyEvent record) t with
              | Some t' => Some (g, h, t')
              | None => read_console fuel' g h t
              end
        end
  end.

(** [win_terminal_in::select]. *)
Definition select (fuel : nat) (g : globals) (h : host_console)
    (t : win_terminal_in) : option (globals * host_console * win_terminal_in) :=
  if negb (truthy (m_buffer_count t)) then read_console fuel g h t
  else Some (g, h, t).

(** [win_terminal_in::begin] and [end]. *)
Definition in_begin (h : host_console) (t : win_terminal_in)
  : host_console * win_terminal_in :=
  let t := mk_in true (in_mode h) (m_buffer t) (m_buffer_head t) 0 in
  (SetConsoleMode_in ENABLE_WINDOW_INPUT h, t).

Definition in_end (h : host_console) (t : win_terminal_in)
  : host_console * win_terminal_in :=
  (SetConsoleMode_in (m_prev_mode_in t) h,
   mk_in false (m_prev_mode_in t) (m_buffer t) (m_buffer_head t)
         (m_buffer_count t)).

(** ** The output side: [win_terminal_out] *)

Record win_terminal_out := mk_out {
  m_stdout : bool;
  m_prev_mode_out : Z;
  m_default_attr : Z;
  m_attr : Z;
}.

Definition out_begin (h : host_console) (o : win_terminal_out)
  : host_console * win_terminal_out :=
  let default_attr := to_uchar (Z.land (wAttributes h) 0xff) in
  (h, mk_out true (out_mode h) default_attr default_attr).

Definition out_end (h : host_console) (o : win_terminal_out)
  : host_console * win_terminal_out :=
  let h := SetConsoleMode_out (m_prev_mode_out o) h in
  let h := SetConsoleTextAttribute (m_default_attr o) h in
  (h, mk_out false (m_prev_mode_out o) (m_default_attr o) (m_attr o)).

(** [win_terminal_out::write(const char*, int)].  The run goes to
    [WriteConsoleW] in pieces of at most 256 units after [to_utf16], which
    is not among the sources; [written] records the run in the encoding
    [write] receives it in. *)
Definition out_write (chars : list Z) (h : host_console) : host_console :=
  WriteConsoleW chars h.

Definition get_default_attr (o : win_terminal_out) : Z := m_default_attr o.
Definition get_attr (o : win_terminal_out) : Z := m_attr o.

Definition set_attr (attr : Z) (h : host_console) (o : win_terminal_out)
  : host_console * win_terminal_out :=
  (SetConsoleTextAttribute attr h,
   mk_out (m_stdout o) (m_prev_mode_out o) (m_default_attr o) attr).

(** ** The escape-code decoder *)

Module Ecma48.

(** Modelled from the spec: [ecma48_iter], [ecma48_code] and
    [ecma48_state] (terminal/src/ecma48_iter.h) are not among the sources.
    The specification (section 4.2) gives the decoder as a restartable
    scanner with a persistent parse state: bytes below 0x20 are single-byte
    C0 codes, ESC starts a sequence, ESC [ starts a CSI sequence whose
    digits and semicolons are consumed up to the first other byte (the
    final character), any other run of bytes is text ended at the next
    control introducer or at the end of the input, and input that ends
    inside a sequence leaves the partial sequence in the state. *)
Inductive ecma48_state :=
  | state_unknown
  | state_esc
  | state_csi (seq : list Z).

(** [type_chars], [type_c0] and [type_c1] with what [get_code] and
    [get_pointer]/[get_length] return. *)
Inductive ecma48_code :=
  | type_chars (chars : list Z)
  | type_c0 (code : Z)
  | type_c1 (code : Z) (chars : list Z).

Definition c1_csi : Z := 0x5b.

Definition is_param_byte (c : Z) : bool :=
  ((0x30 <=? c) && (c <=? 0x39)) || (c =? 0x3b).

Definition flush (run : list Z) : list ecma48_code :=
  match run with
  | [] => []
  | _ :: _ => [type_chars run]
  end.

(** One byte of input: the codes completed by it, the state and the open
    text run after it. *)
Definition step (s : ecma48_state * list Z) (c : Z)
  : list ecma48_code * (ecma48_state * list Z) :=
  let '(st, run) := s in
  match st with
  | state_unknown =>
      if c =? 0x1b then (flush run, (state_esc, []))
      else if c <? 0x20 then (flush run ++ [type_c0 c], (state_unknown, []))
      else ([], (state_unknown, run ++ [c]))
  | state_esc =>
      if c =? c1_csi then ([], (state_csi [0x1b; c], run))
      else (flush run ++ [type_c1 c [0x1b; c]], (state_unknown, []))
  | state_csi seq =>
      if is_param_byte c then ([], (state_csi (seq ++ [c]), run))
      else (flush run ++ [type_c1 c1_csi (seq ++ [c])], (state_unknown, []))
  end.

Fixpoint steps (s : ecma48_state * list Z) (chars : list Z)
  : list ecma48_code * (ecma48_state * list Z) :=
  match chars with
  | [] => ([], s)
  | c :: chars' =>
      let '(codes, s1) := step s c in
      let '(codes', s2) := steps s1 chars' in
      (codes ++ codes', s2)
  end.

(** All the codes [ecma48_iter::next] yields for one chunk, and the state
    left in [m_state]. *)
Definition ecma48_iter (chars : list Z) (st : ecma48_state)
  : list ecma48_code * ecma48_state :=
  let '(codes, (st', run)) := steps (st, []) chars in
  (codes ++ flush run, st').

(** The parameters of a CSI sequence: decimal fields separated by
    semicolons, an empty field counting as 0, up to the final character. *)
Fixpoint csi_fields (param : Z) (done : list Z) (body : list Z)
  : Z * list Z :=
  match body with
  | [] => (0, done ++ [param])
  | c :: body' =>
      if (0x30 <=? c) && (c <=? 0x39)
      then csi_fields (param * 10 + (c - 0x30)) done body'
      else if c =? 0x3b then csi_fields 0 (done ++ [param]) body'
      else (c, done ++ [param])
  end.

(** [ecma48_code::decode_csi(final, params, max_params)]: the final
    character and at most [max_params] parameters. *)
Definition decode_csi (chars : list Z) (max_params : Z) : Z * list Z :=
  let '(final, params) := csi_fields 0 [] (drop 2 chars) in
  (final, take (Z.to_nat max_params) params).

End Ecma48.

(** ** The session: [win_terminal] *)

Record win_terminal := mk_term {
  t_in : win_terminal_in;
  t_out : win_terminal_out;
  m_state : Ecma48.ecma48_state;
  m_enable_c1 : bool;
}.

Definition set_out (o : win_terminal_out) (t : win_terminal) : win_terminal :=
  mk_term (t_in t) o (m_state t) (m_enable_c1 t).

Definition set_state (st : Ecma48.ecma48_state) (t : win_terminal)
  : win_terminal :=
  mk_term (t_in t) (t_out t) st (m_enable_c1 t).

(** [win_terminal::begin] and [win_terminal::end]. *)
Definition begin (h : host_console) (t : win_terminal)
  : host_console * win_terminal :=
  let '(h, i) := in_begin h (t_in t) in
  let '(h, o) := out_begin h (t_out t) in
  (h, mk_term i o (m_state t) (m_enable_c1 t)).

Definition end_ (h : host_console) (t : win_terminal)
  : host_console * win_terminal :=
  let '(h, o) := out_end h (t_out t) in
  let '(h, i) := in_end h (t_in t) in
  (h, mk_term i o (m_state t) (m_enable_c1 t)).

(** [win_terminal::check_c1_support]. *)
Definition dll_names : list string :=
  [ "conemuhk.dll"%string; "conemuhk64.dll"%string; "ansi.dll"%string;
    "ansi32.dll"%string; "ansi64.dll"%string ].

Fixpoint check_c1_support_loop (names : list string) (g : globals)
    (h : host_console) : bool :=
  match names with
  | [] => negb (g_ansi g)
  | dll_name :: names' =>
      if resident h dll_name then false
      else check_c1_support_loop names' g h
  end.

Definition check_c1_support (g : globals) (h : host_console)
    (t : win_terminal) : win_terminal :=
  mk_term (t_in t) (t_out t) (m_state t) (check_c1_support_loop dll_names g h).

(** [win_terminal::write_sgr]. *)
Definition sgr_to_attr (i : Z) : Z :=
  default 0 ([0; 4; 2; 6; 1; 5; 3; 7] !! Z.to_nat i).

(** One round of the loop over [params]: the new value of [attr].  [param]
    is an [int]; [param - 30 < 8] is a signed comparison and [&] acts on
    the two's complement representation, as [Z.land] does. *)
Definition sgr_param (default_attr attr param : Z) : Z :=
  if param =? 0 then default_attr
  else if param =? 1 then to_uchar (Z.lor attr 0x08)
  else if (param =? 2) || (param =? 22)
  then to_uchar (Z.land attr (Z.lnot 0x08))
  else if param =? 4 then to_uchar (Z.lor attr 0x80)
  else if param =? 24 then to_uchar (Z.land attr (Z.lnot 0x80))
  else if param - 30 <? 8
  then to_uchar (Z.lor (Z.land attr 0xf8) (sgr_to_attr (Z.land (param - 30) 7)))
  else if param - 90 <? 8
  then let attr := to_uchar (Z.lor attr 0x08) in
       to_uchar (Z.lor (Z.land attr 0xf8) (sgr_to_attr (Z.land (param - 90) 7)))
  else if param =? 39
  then to_uchar (Z.lor (Z.land attr 0xf8) (Z.land default_attr 0x07))
  else if param - 40 <? 8
  then to_uchar (Z.lor (Z.land attr 0x8f)
                       (Z.shiftl (sgr_to_attr (Z.land (param - 40) 7)) 4))
  else if param - 100 <? 8
  then let attr := to_uchar (Z.lor attr 0x80) in
       to_uchar (Z.lor (Z.land attr 0x8f)
                       (Z.shiftl (sgr_to_attr (Z.land (param - 100) 7)) 4))
  else if param =? 49
  then to_uchar (Z.lor (Z.land attr 0x8f) (Z.land default_attr 0x70))
  else if (param =? 38) || (param =? 48) then attr
  else attr.

Definition write_sgr (params : list Z) (h : host_console) (t : win_terminal)
  : host_console * win_terminal :=
  let attr :=
    fold_left (sgr_param (get_default_attr (t_out t))) params
              (get_attr (t_out t)) in
  let '(h, o) := set_attr attr h (t_out t) in
  (h, set_out o t).

(** [win_terminal::write_c1]. *)
Definition write_c1 (code : Z) (chars : list Z) (h : host_console)
    (t : win_terminal) : host_console * win_terminal :=
  if negb (m_enable_c1 t) then (out_write chars h, t)
  else if negb (code =? Ecma48.c1_csi) then (h, t)
  else
    let '(final, params) := Ecma48.decode_csi chars 32 in
    if final =? chr "m" then write_sgr params h t
    else (h, t).

(** [win_terminal::write_c0]. *)
Definition write_c0 (c0 : Z) (h : host_console) : host_console :=
  if c0 =? 0x07 then h
  else WriteConsoleW [to_wchar c0] h.

(** The body of the loop of [win_terminal::write]: one decoded code. *)
Definition write_code (s : host_console * win_terminal)
    (code : Ecma48.ecma48_code) : host_console * win_terminal :=
  let '(h, t) := s in
  match code with
  | Ecma48.type_chars chars => (out_write chars h, t)
  | Ecma48.type_c0 c0 => (write_c0 c0 h, t)
  | Ecma48.type_c1 c chars => write_c1 c chars h t
  end.

(** [win_terminal::write]. *)
Definition write (chars : list Z) (h : host_console) (t : win_terminal)
  : host_console * win_terminal :=
  let '(codes, st) := Ecma48.ecma48_iter chars (m_state t) in
  fold_left write_code codes (h, set_state st t).

(** ** The subprocess helper: [next_line] and [lua_execute] *)

Module LuaExec.

(** The Lua values the function meets.  Numbers are taken as integers;
    the table is the one [lua_execute] builds, integer keys to strings. *)
Inductive lua_value :=
  | LNil
  | LBoolean (b : bool)
  | LNumber (n : Z)
  | LString (s : list Z)
  | LTable (t : gmap Z (list Z)).

(** The coercions of the Lua library between numbers and strings. *)
Record lua_runtime := mk_runtime {
  number_to_string : Z -> list Z;
  string_to_number : list Z -> option Z;
}.

Definition lua_isstring (v : lua_value) : bool :=
  match v with
  | LString _ | LNumber _ => true
  | _ => false
  end.

Definition lua_tostring (rt : lua_runtime) (v : lua_value) : list Z :=
  match v with
  | LString s => s
  | LNumber n => number_to_string rt n
  | _ => []
  end.

Definition lua_isnumber (rt : lua_runtime) (v : lua_value) : bool :=
  match v with
  | LNumber _ => true
  | LString s => bool_decide (is_Some (string_to_number rt s))
  | _ => false
  end.

Definition lua_tointeger (rt : lua_runtime) (v : lua_value) : Z :=
  match v with
  | LNumber n => n
  | LString s => default 0 (string_to_number rt s)
  | _ => 0
  end.

(** What the operating system does for one call: whether the job object
    can be created, and for each command line and timeout either a
    process, given by the bytes the [ReadFile] loop leaves in the buffer
    and by what [GetExitCodeProcess] reports ([None] when that call
    fails), or the error [GetLastError] returns.  The results of
    [create_pipe] are not looked at by [lua_execute] and have no part
    here. *)
Record process := mk_process {
  stdout_bytes : list Z;
  exit_code : option Z;
}.

Inductive create_result :=
  | Launched (p : process)
  | Failed (last_error : Z).

Record exec_host := mk_exec_host {
  create_job : bool;
  CreateProcess : list Z -> Z -> create_result;
}.

Definition ERROR_FILE_NOT_FOUND : Z := 2.

Fixpoint bytes_of (s : string) : list Z :=
  match s with
  | EmptyString => []
  | String a s' => chr a :: bytes_of s'
  end.

(** The committed buffer is zero beyond what was read into it. *)
Definition byte_at (buf : list Z) (p : nat) : Z := default 0 (buf !! p).

Definition is_eol (c : Z) : bool := (c =? 13) || (c =? 10).

(** [strpbrk(str, EOLS)] on the string [s] that starts at [str]: the
    offset of the first CR or LF before the terminating NUL. *)
Fixpoint strpbrk_eols (s : list Z) : option nat :=
  match s with
  | [] => None
  | c :: s' =>
      if c =? 0 then None
      else if is_eol c then Some O
      else S <$> strpbrk_eols s'
  end.

Fixpoint strlen (s : list Z) : nat :=
  match s with
  | [] => O
  | c :: s' => if c =? 0 then O else S (strlen s')
  end.

(** The string a [char*] into the buffer points to. *)
Definition c_string (buf : list Z) (p : nat) : list Z :=
  take (strlen (drop p buf)) (drop p buf).

(** The do-while loop of [next_line]: store 0 at [eol], step on, and
    repeat while the byte there is CR or LF.  [room]
    counts the bytes of the buffer after [eol]; beyond them the memory is
    zero and the loop stops. *)
Fixpoint zero_eols (room : nat) (buf : list Z) (eol : nat) : list Z * nat :=
  let buf := <[eol := 0]> buf in
  let eol := S eol in
  match room with
  | O => (buf, eol)
  | S room' =>
      if is_eol (byte_at buf eol) then zero_eols room' buf eol
      else (buf, eol)
  end.

(** [next_line]: the buffer after the writes, and the returned pointer
    ([None] for nullptr). *)
Definition next_line (buf : list Z) (str : nat) : list Z * option nat :=
  let '(buf, eol) :=
    match strpbrk_eols (drop str buf) with
    | Some k => zero_eols (length buf - S (str + k)) buf (str + k)%nat
    | None => (buf, (str + strlen (drop str buf))%nat)
    end in
  (buf, if truthy (byte_at buf eol) then Some eol else None).

(** The loop of [lua_execute] that fills the table; one unit of [fuel]
    for each round, [None] when it is spent. *)
Fixpoint extract_lines (fuel : nat) (buf : list Z) (line : nat)
    (line_count : Z) (tbl : gmap Z (list Z)) : option (gmap Z (list Z)) :=
  match fuel with
  | O => None
  | S fuel' =>
      let '(buf, next) := next_line buf line in
      let line_count := line_count + 1 in
      let tbl := <[line_count := c_string buf line]> tbl in
      match next with
      | Some line' => extract_lines fuel' buf line' line_count tbl
      | None => Some tbl
      end
  end.

(** The execution timeout [lua_execute] reads from its second argument. *)
Definition exec_timeout (rt : lua_runtime) (args : list lua_value) : Z :=
  if bool_decide (1 < length args)%nat
     && lua_isnumber rt (default LNil (args !! 1%nat))
  then lua_tointeger rt (default LNil (args !! 1%nat))
  else 1000.

(** The two attempts at [CreateProcess]: the command as given, and through
    the command processor when the executable was not found. *)
Definition launch (os : exec_host) (cmd : list Z) (timeout : Z)
  : create_result :=
  match CreateProcess os cmd timeout with
  | Launched p => Launched p
  | Failed last_error =>
      if last_error =? ERROR_FILE_NOT_FOUND
      then CreateProcess os (bytes_of "cmd.exe /c " ++ cmd) timeout
      else Failed last_error
  end.

(** [lua_execute]: the values left for the caller ([[]] for [return 0]);
    [None] only if the line loop were to outrun the buffer. *)
Definition lua_execute (rt : lua_runtime) (os : exec_host)
    (args : list lua_value) : option (list lua_value) :=
  let arg_count := length args in
  if bool_decide (arg_count = O)
     || negb (lua_isstring (default LNil (args !! 0%nat))) then Some []
  else
    let cmd := lua_tostring rt (default LNil (args !! 0%nat)) in
    let timeout := exec_timeout rt args in
    if negb (create_job os) then Some []
    else
      match launch os cmd timeout with
      | Failed _ => Some []
      | Launched p =>
          let buffer := stdout_bytes p in
          match extract_lines (S (length buffer)) buffer 0%nat 0 ∅ with
          | None => None
          | Some tbl =>
              let proc_ret := default (to_unsigned (-1)) (exit_code p) in
              Some [LTable tbl; LNumber proc_ret]
          end
      end.

(** *** The lines of a text, for comparison

    [text_lines] reads the interface's words as they stand: a line ends at
    LF, at CR, or at CR LF taken together, blank lines are lines, and text
    after the last line end is a last line. *)
Fixpoint text_lines_from (cur : list Z) (s : list Z) : list (list Z) :=
  match s with
  | [] => match cur with [] => [] | _ :: _ => [cur] end
  | c :: s' =>
      if c =? 10 then cur :: text_lines_from [] s'
      else if c =? 13 then
        match s' with
        | c' :: s'' =>
            if c' =? 10 then cur :: text_lines_from [] s''
            else cur :: text_lines_from [] s'
        | [] => [cur]
        end
      else text_lines_from (cur ++ [c]) s'
  end.

Definition text_lines (s : list Z) : list (list Z) := text_lines_from [] s.

(** [lines] is what the amended statement says: the text is cut at every
    CR and LF, and apart from the first piece the empty pieces (between
    the CR and the LF of one line end, between blank lines, after the last
    line end) are left out. *)
Fixpoint pieces (s : list Z) : list Z * list (list Z) :=
  match s with
  | [] => ([], [])
  | c :: s' =>
      let '(p, ps) := pieces s' in
      if is_eol c then ([], p :: ps) else (c :: p, ps)
  end.

Definition nonempty (l : list Z) : bool :=
  match l with
  | [] => false
  | _ :: _ => true
  end.

Definition lines (s : list Z) : list (list Z) :=
  let '(p, ps) := pieces s in p :: List.filter nonempty ps.

(** The pieces that count when the first one has no privilege: what
    [lines] keeps of the text after a line end. *)
Definition kept (s : list Z) : list (list Z) :=
  List.filter nonempty (fst (pieces s) :: snd (pieces s)).

(** The table that holds [ls] under the keys [count + 1], [count + 2], ... *)
Fixpoint number_from (count : Z) (ls : list (list Z)) (tbl : gmap Z (list Z))
  : gmap Z (list Z) :=
  match ls with
  | [] => tbl
  | l :: ls' => number_from (count + 1) ls' (<[count + 1 := l]> tbl)
  end.

(** A Lua library and an operating system to evaluate on: every command
    starts a process that prints [out] and exits with [code]. *)
Definition plain_runtime : lua_runtime :=
  mk_runtime (fun _ => [0x34; 0x32]) (fun _ => None).

Definition os_printing (out : list Z) (code : Z) : exec_host :=
  mk_exec_host true (fun _ _ => Launched (mk_process out (Some code))).

End LuaExec.

(** ** Notions used in the statements *)

(** The byte [pop] returns on its [i]-th call from now (counting from 0),
    as long as nothing is pushed in between. *)
Definition slot (t : win_terminal_in) (i : nat) : Z :=
  default 0 (m_buffer t !!
               Z.to_nat ((m_buffer_head t + Z.of_nat i) mod sizeof_m_buffer t)).

(** One byte stored behind the pending ones: the store and the increment
    that both branches of [push] perform for each byte they accept. *)
Definition push_raw (t : win_terminal_in) (b : Z) : win_terminal_in :=
  set_buffer t
    (<[Z.to_nat (Z.land (m_buffer_head t + m_buffer_count t) (mask t))
       := to_uchar b]> (m_buffer t))
    (m_buffer_count t + 1).


(** The bytes of a CSI sequence: ESC, the opening bracket, the parameter
    bytes and the final character. *)
Definition csi_sequence (params : list Z) (final : Z) : list Z :=
  [0x1b; 0x5b] ++ params ++ [final].

(** An idle eight-slot buffer, a console and a session to evaluate on. *)
Definition buffer8 : win_terminal_in := mk_in true 0 (replicate 8 0) 0 0.

Definition console (attributes : Z) : host_console :=
  mk_host 0x01f7 0x0003 attributes 80 300 0 24 [] [] (fun _ => false).

Definition session (attr : Z) (enable_c1 : bool) : win_terminal :=
  mk_term buffer8 (mk_out true 0x0003 attr attr) Ecma48.state_unknown
          enable_c1.

Definition default_settings : globals := mk_globals true true 0 O.

(** ** Further parts of the sources *)

(** [win_terminal_out::get_columns] and [get_rows]. *)
Definition get_columns (h : host_console) : Z := dwSize_X h.

Definition get_rows (h : host_console) : Z :=
  srWindow_Bottom h - srWindow_Top h + 1.

(** *** The session as the line editor drives it *)

Module Session.

Definition set_in (i : win_terminal_in) (t : win_terminal) : win_terminal :=
  mk_term i (t_out t) (m_state t) (m_enable_c1 t).

(** [win_terminal::select] and [win_terminal::read]. *)
Definition select (fuel : nat) (g : globals) (h : host_console)
    (t : win_terminal) : option (globals * host_console * win_terminal) :=
  match select fuel g h (t_in t) with
  | Some (g', h', i) => Some (g', h', set_in i t)
  | None => None
  end.

Definition read (t : win_terminal) : Z * win_terminal :=
  let '(c, i) := read (t_in t) in (c, set_in i t).

(** The calls a client makes between [begin] and [end]. *)
Inductive call :=
  | call_select (fuel : nat)
  | call_read
  | call_write (chars : list Z)
  | call_check_c1_support.

Definition run_call (s : globals * host_console * win_terminal) (c : call)
  : option (globals * host_console * win_terminal) :=
  let '(g, h, t) := s in
  match c with
  | call_select fuel => select fuel g h t
  | call_read => Some (g, h, snd (read t))
  | call_write chars => let '(h', t') := write chars h t in Some (g, h', t')
  | call_check_c1_support => Some (g, h, check_c1_support g h t)
  end.

(** A series of calls; [None] when a [select] among them does not
    return. *)
Fixpoint run_calls (cs : list call) (s : globals * host_console * win_terminal)
  : option (globals * host_console * win_terminal) :=
  match cs with
  | [] => Some s
  | c :: cs' =>
      match run_call s c with
      | Some s' => run_calls cs' s'
      | None => None
      end
  end.

End Session.

(** *** The ring buffer and a bounded queue *)

Inductive buffer_op :=
  | op_push (value : Z)
  | op_pop.

(** Calls of [push] and [pop] in a row, with the bytes the pops return. *)
Definition run_op (s : list Z * win_terminal_in) (op : buffer_op)
  : list Z * win_terminal_in :=
  let '(out, t) := s in
  match op with
  | op_push value => (out, push value t)
  | op_pop => let '(c, t') := pop t in (out ++ [c], t')
  end.

(** The same calls on a queue of bytes that holds at most [capacity]. *)
Definition queue_op (capacity : nat) (s : list Z * list Z) (op : buffer_op)
  : list Z * list Z :=
  let '(out, q) := s in
  match op with
  | op_push value =>
      (out, if (length q <? capacity)%nat then q ++ [value] else q)
  | op_pop =>
      match q with
      | [] => (out ++ [0xff], [])
      | c :: q' => (out ++ [c], q')
      end
  end.

Definition narrow_op (op : buffer_op) : Prop :=
  match op with
  | op_push value => 0 <= value < 0x80
  | op_pop => True
  end.

(** *** Pipes and the job object of lua_exec.cpp *)

Module Handles.

(** The handles open in the process, each with its inherit flag.  A
    HANDLE is a number, [nullptr] is 0. *)
Record pipe_t := mk_pipe {
  pipe_read : Z;
  pipe_write : Z;
}.

Definition ReadHandleInheritable : Z := Z.shiftl 1 0.
Definition WriteHandleInheritable : Z := Z.shiftl 1 1.

Definition CloseHandle (handle : Z) (k : gmap Z bool) : gmap Z bool :=
  delete handle k.

(** [SetHandleInformation(handle, HANDLE_FLAG_INHERIT, 0)]. *)
Definition clear_inherit (handle : Z) (k : gmap Z bool) : gmap Z bool :=
  alter (fun _ => false) handle k.

(** [create_pipe].  [os] is what [CreatePipe] does: [None] when it fails,
    the two new handles (read end, write end) when it succeeds. *)
Definition create_pipe (flags : Z) (os : option (Z * Z)) (k : gmap Z bool)
  : Z * pipe_t * gmap Z bool :=
  let pipe := mk_pipe 0 0 in
  let bInheritHandle :=
    truthy (Z.land flags (Z.lor ReadHandleInheritable WriteHandleInheritable))
  in
  match os with
  | None => (0, pipe, k)
  | Some (r, w) =>
      let pipe := mk_pipe r w in
      let k := <[w := bInheritHandle]> (<[r := bInheritHandle]> k) in
      let k := if negb (truthy (Z.land flags ReadHandleInheritable))
               then clear_inherit (pipe_read pipe) k else k in
      let k := if negb (truthy (Z.land flags WriteHandleInheritable))
               then clear_inherit (pipe_write pipe) k else k in
      (1, pipe, k)
  end.

(** [destroy_pipe]. *)
Definition destroy_pipe (pipe : pipe_t) (k : gmap Z bool)
  : pipe_t * gmap Z bool :=
  let '(pipe, k) :=
    if truthy (pipe_read pipe)
    then (mk_pipe 0 (pipe_write pipe), CloseHandle (pipe_read pipe) k)
    else (pipe, k) in
  if truthy (pipe_write pipe)
  then (mk_pipe (pipe_read pipe) 0, CloseHandle (pipe_write pipe) k)
  else (pipe, k).

(** [create_job].  [os] is what [CreateJobObject] returns ([None] for
    nullptr), [limit_set] whether [SetInformationJobObject] succeeds. *)
Definition create_job (os : option Z) (limit_set : bool) (k : gmap Z bool)
  : Z * gmap Z bool :=
  match os with
  | None => (0, k)
  | Some handle =>
      let k := <[handle := false]> k in
      if negb limit_set then (0, CloseHandle handle k)
      else (handle, k)
  end.

End Handles.

(** *** Word break information of generator.lua *)

Module Generators.







End Generators.

(** *** Ranges of integers to check a table over *)

(** The [n] integers from [lo] on. *)
Definition upto (lo : Z) (n : nat) : list Z :=
  map (fun i => lo + Z.of_nat i) (seq 0 n).

(** * Properties *)

(** ** Session lifecycle *)

Lemma land_255_uchar (x : Z) : to_uchar (Z.land x 0xff) = Z.land x 0xff.
Proof.
  unfold to_uchar. change 0xff with (Z.ones 8).
  rewrite Z.land_ones by lia.
  change (2 ^ 8) with 256. apply Z.mod_mod. lia.
Qed.

(** C7 (as amended): [begin()] followed at once by [end()] leaves the input
    mode and the output mode of the host console at their values before
    [begin()], and leaves the console attribute at the low eight bits of
    its value before [begin()]. *)
Theorem begin_end_restores (h : host_console) (t : win_terminal) :
  let h' := fst (end_ (fst (begin h t)) (snd (begin h t))) in
  in_mode h' = in_mode h
  /\ out_mode h' = out_mode h
  /\ wAttributes h' = Z.land (wAttributes h) 0xff.
Proof.
  cbn. repeat split. apply land_255_uchar.
Qed.

(** C7 (as stated) fails: a console whose attribute word carries the
    reverse-video flag 0x4000 comes back from [begin()]; [end()] with the
    attribute 0x0007 instead of 0x4007. *)
Lemma begin_end_drops_high_attribute_bits :
  let h := console 0x4007 in
  let t := session 0 true in
  wAttributes (fst (end_ (fst (begin h t)) (snd (begin h t)))) = 0x0007
  /\ wAttributes h = 0x4007.
Proof. split; reflexivity. Qed.

(** ** The capability probe *)

Lemma check_c1_support_loop_none (names : list string) (g : globals)
    (h : host_console) :
  Forall (fun name => resident h name = false) names ->
  check_c1_support_loop names g h = negb (g_ansi g).
Proof.
  induction 1 as [|name names Hname _ IH]; cbn.
  - reflexivity.
  - rewrite Hname. exact IH.
Qed.

(** C3: when none of the known third-party modules is resident, the probe
    sets the interpretation flag to the negation of the configuration
    flag; with the flag at its default (on) interpretation ends up off. *)
Theorem check_c1_support_negates_setting (g : globals) (h : host_console)
    (t : win_terminal) :
  Forall (fun name => resident h name = false) dll_names ->
  m_enable_c1 (check_c1_support g h t) = negb (g_ansi g).
Proof.
  intros Hnone. unfold check_c1_support. cbn [m_enable_c1].
  now apply check_c1_support_loop_none.
Qed.

Lemma check_c1_support_negates_setting_witness :
  Forall (fun name => resident (console 7) name = false) dll_names
  /\ g_ansi default_settings = true
  /\ m_enable_c1 (check_c1_support default_settings (console 7)
                                   (session 7 true)) = false.
Proof.
  assert (H : Forall (fun name => resident (console 7) name = false)
                     dll_names)
    by (repeat constructor).
  split; [exact H|]. split; [reflexivity|].
  exact (check_c1_support_negates_setting default_settings (console 7)
                                          (session 7 true) H).
Defined.

(** ** SGR parameters *)

(** C4: parameters outside the recognised set are not ignored.  From the
    attribute 0 (default 0), each of the parameters 3, 5, 7, 38 and 48
    given alone changes the attribute: the signed tests [param - 30 < 8]
    and [param - 90 < 8] take them for colours. *)
Theorem write_sgr_unrecognized_changes_attr :
  map (fun param =>
         m_attr (t_out (snd (write_sgr [param] (console 0) (session 0 true)))))
      [3; 5; 7; 38; 48]
  = [0x05; 0x07; 0x04; 0x09; 0x0b].
Proof. reflexivity. Qed.

(** ** C1 codes with interpretation enabled *)

(** C9: with interpretation enabled, a C1 code that is not a CSI sequence,
    and a CSI sequence whose final character is not [m], change neither
    the host console (nothing is written, no attribute is set) nor the
    session. *)
Theorem write_c1_discards (code : Z) (chars : list Z) (h : host_console)
    (t : win_terminal) :
  m_enable_c1 t = true ->
  code <> Ecma48.c1_csi \/ fst (Ecma48.decode_csi chars 32) <> chr "m" ->
  write_c1 code chars h t = (h, t).
Proof.
  intros Hen Hcode. unfold write_c1. rewrite Hen. cbn [negb].
  destruct (code =? Ecma48.c1_csi) eqn:Hc; cbn [negb]; [|reflexivity].
  apply Z.eqb_eq in Hc.
  destruct Hcode as [Hne|Hfinal]; [contradiction|].
  destruct (Ecma48.decode_csi chars 32) as [final params]. cbn in Hfinal.
  destruct (final =? chr "m") eqn:Hm; [|reflexivity].
  apply Z.eqb_eq in Hm. contradiction.
Qed.

Lemma write_c1_discards_witness :
  write_c1 Ecma48.c1_csi [0x1b; 0x5b; 0x32; 0x4a] (console 7) (session 7 true)
  = (console 7, session 7 true).
Proof.
  apply write_c1_discards.
  - reflexivity.
  - right. vm_compute. discriminate.
Defined.

(** ** The ring buffer *)

Lemma buffer_ok_size (t : win_terminal_in) :
  buffer_ok t -> 1 <= sizeof_m_buffer t <= 128.
Proof.
  intros [[k [Hk Hsz]] _]. rewrite Hsz. split.
  - assert (0 < 2 ^ k) by (apply Z.pow_pos_nonneg; lia). lia.
  - change 128 with (2 ^ 7). apply Z.pow_le_mono_r; lia.
Qed.

Lemma buffer_ok_mask (t : win_terminal_in) :
  buffer_ok t -> mask t = sizeof_m_buffer t - 1.
Proof.
  intros Hok. pose proof (buffer_ok_size t Hok).
  unfold mask, to_uchar. apply Z.mod_small. lia.
Qed.

Lemma land_size_mask (t : win_terminal_in) (x : Z) :
  buffer_ok t -> Z.land x (sizeof_m_buffer t - 1) = x mod sizeof_m_buffer t.
Proof.
  intros [[k [Hk Hsz]] _]. rewrite Hsz.
  replace (2 ^ k - 1) with (Z.ones k) by (rewrite Z.ones_equiv; lia).
  apply Z.land_ones. lia.
Qed.

Lemma mod_apart (a b m : Z) : 0 <= a < b -> b < a + m -> a mod m <> b mod m.
Proof.
  intros Hab Hm Heq.
  assert (Hpos : 0 < m) by lia.
  pose proof (Z.div_mod a m ltac:(lia)) as Ha.
  pose proof (Z.div_mod b m ltac:(lia)) as Hb.
  rewrite Heq in Ha.
  assert (Hd : b - a = m * (b / m - a / m)) by lia.
  assert (0 < b / m - a / m) by nia.
  nia.
Qed.

Lemma slot_index_lt (t : win_terminal_in) (x : Z) :
  buffer_ok t ->
  (Z.to_nat (x mod sizeof_m_buffer t) < length (m_buffer t))%nat.
Proof.
  intros Hok. pose proof (buffer_ok_size t Hok) as Hsz.
  pose proof (Z.mod_pos_bound x (sizeof_m_buffer t) ltac:(lia)).
  unfold sizeof_m_buffer in *. lia.
Qed.

Lemma pop_step (t : win_terminal_in) :
  buffer_ok t -> 0 < m_buffer_count t ->
  fst (pop t) = slot t 0
  /\ buffer_ok (snd (pop t))
  /\ m_buffer_count (snd (pop t)) = m_buffer_count t - 1
  /\ (forall i, slot (snd (pop t)) i = slot t (S i)).
Proof.
  intros Hok Hcount. pose proof (buffer_ok_size t Hok) as Hsz.
  pose proof Hok as (Hpow & Hhead & Hc).
  unfold pop. destruct (m_buffer_count t =? 0) eqn:E;
    [apply Z.eqb_eq in E; lia|]. cbn [fst snd].
  rewrite (land_size_mask t _ Hok).
  split; [|split; [|split]].
  - unfold slot. rewrite Z.add_0_r, Z.mod_small by lia. reflexivity.
  - unfold buffer_ok, sizeof_m_buffer in *. cbn.
    split; [exact Hpow|]. split; [apply Z.mod_pos_bound|]; lia.
  - cbn. lia.
  - intros i. unfold slot, sizeof_m_buffer. cbn.
    rewrite Z.add_mod_idemp_l by (unfold sizeof_m_buffer in *; lia).
    replace (m_buffer_head t + 1 + Z.of_nat i)
      with (m_buffer_head t + Z.of_nat (S i)) by lia.
    reflexivity.
Qed.

Lemma pop_n_slots (n : nat) :
  forall t : win_terminal_in,
    buffer_ok t -> Z.of_nat n <= m_buffer_count t ->
    fst (pop_n n t) = map (slot t) (seq 0 n).
Proof.
  induction n as [|n IH]; intros t Hok Hn; [reflexivity|].
  destruct (pop_step t Hok ltac:(lia)) as (Hv & Hok1 & Hc1 & Hslot).
  cbn [pop_n]. destruct (pop t) as [c t1]. cbn [fst snd] in *.
  specialize (IH t1 Hok1 ltac:(lia)).
  destruct (pop_n n t1) as [cs t2]. cbn [fst] in *.
  rewrite IH, Hv. cbn [seq map]. f_equal.
  rewrite <- seq_shift, map_map. apply map_ext. exact Hslot.
Qed.

Lemma pending_slots (t : win_terminal_in) :
  buffer_ok t ->
  pending t = map (slot t) (seq 0 (Z.to_nat (m_buffer_count t))).
Proof.
  intros Hok. unfold pending. apply pop_n_slots; [exact Hok|].
  destruct Hok as (_ & _ & Hc). lia.
Qed.

Lemma push_raw_ok (t : win_terminal_in) (b : Z) :
  buffer_ok t -> buffer_ok (push_raw t b).
Proof.
  intros (Hpow & Hhead & Hc). unfold buffer_ok, push_raw, sizeof_m_buffer in *.
  cbn. rewrite length_insert. repeat split; try tauto; lia.
Qed.

Lemma push_raw_size (t : win_terminal_in) (b : Z) :
  sizeof_m_buffer (push_raw t b) = sizeof_m_buffer t.
Proof. unfold sizeof_m_buffer, push_raw. cbn. now rewrite length_insert. Qed.

Lemma pending_push_raw (t : win_terminal_in) (b : Z) :
  buffer_ok t -> m_buffer_count t < sizeof_m_buffer t ->
  pending (push_raw t b) = pending t ++ [to_uchar b].
Proof.
  intros Hok Hroom.
  rewrite (pending_slots _ (push_raw_ok t b Hok)), (pending_slots t Hok).
  pose proof (buffer_ok_size t Hok) as Hsz.
  pose proof (buffer_ok_mask t Hok) as Hmask.
  pose proof Hok as (Hpow & Hhead & Hc).
  replace (m_buffer_count (push_raw t b)) with (m_buffer_count t + 1)
    by reflexivity.
  replace (Z.to_nat (m_buffer_count t + 1))
    with (S (Z.to_nat (m_buffer_count t))) by lia.
  rewrite seq_S, map_app. cbn [map Nat.add]. f_equal.
  - apply map_ext_in. intros i Hi. apply in_seq in Hi.
    unfold slot. rewrite push_raw_size. unfold push_raw at 1 2. cbn.
    rewrite Hmask, (land_size_mask t _ Hok).
    rewrite list_lookup_insert_ne; [reflexivity|].
    intros Heq. apply Z2Nat.inj in Heq;
      try (apply Z.mod_pos_bound; lia).
    symmetry in Heq. revert Heq. apply mod_apart; lia.
  - unfold slot. rewrite push_raw_size. unfold push_raw at 1 2. cbn.
    rewrite Hmask, (land_size_mask t _ Hok), Z2Nat.id by lia.
    rewrite list_lookup_insert_eq by (apply slot_index_lt; exact Hok).
    reflexivity.
Qed.

Lemma store_bytes_fold (utf8 : list Z) :
  forall t : win_terminal_in,
    set_buffer t
      (store_bytes (mask t) (m_buffer t)
                   (m_buffer_head t + m_buffer_count t) utf8)
      (m_buffer_count t + Z.of_nat (length utf8))
    = fold_left push_raw utf8 t.
Proof.
  induction utf8 as [|b utf8 IH]; intros t.
  - destruct t. unfold set_buffer. cbn. f_equal. lia.
  - cbn [fold_left store_bytes]. rewrite <- IH.
    unfold set_buffer, mask. rewrite push_raw_size.
    unfold push_raw, set_buffer, mask. cbn [m_stdin m_prev_mode_in m_buffer
      m_buffer_head m_buffer_count length].
    f_equal; [|lia].
    f_equal. lia.
Qed.

Lemma fold_push_raw (utf8 : list Z) :
  forall t : win_terminal_in,
    buffer_ok t ->
    m_buffer_count t + Z.of_nat (length utf8) <= sizeof_m_buffer t ->
    pending (fold_left push_raw utf8 t) = pending t ++ map to_uchar utf8
    /\ buffer_ok (fold_left push_raw utf8 t)
    /\ m_buffer_count (fold_left push_raw utf8 t)
       = m_buffer_count t + Z.of_nat (length utf8)
    /\ sizeof_m_buffer (fold_left push_raw utf8 t) = sizeof_m_buffer t.
Proof.
  induction utf8 as [|b utf8 IH]; intros t Hok Hroom.
  - cbn. rewrite app_nil_r. split; [|split; [|split]]; (exact Hok || lia || reflexivity).
  - cbn [fold_left length] in *.
    destruct (IH (push_raw t b) (push_raw_ok t b Hok)) as (Hp & Hok' & Hc & Hs).
    { rewrite push_raw_size. cbn. lia. }
    rewrite Hp, Hc, Hs, pending_push_raw, push_raw_size by (exact Hok || lia).
    rewrite <- app_assoc. cbn.
    split; [|split; [|split]]; (exact Hok' || lia || reflexivity).
Qed.

Lemma push_narrow (value : Z) (t : win_terminal_in) :
  value < 0x80 -> m_buffer_count t < sizeof_m_buffer t ->
  push value t = push_raw t value.
Proof.
  intros Hv Hroom. unfold push.
  destruct (sizeof_m_buffer t <=? m_buffer_count t) eqn:E;
    [apply Z.leb_le in E; lia|].
  destruct (value <? 0x80) eqn:E2; [reflexivity|].
  apply Z.ltb_ge in E2. lia.
Qed.

Lemma push_wide (value : Z) (t : win_terminal_in) :
  buffer_ok t -> 0x80 <= value ->
  m_buffer_count t + Z.of_nat (length (Utf.to_utf8 8 [to_wchar value; 0]))
    < sizeof_m_buffer t ->
  push value t = fold_left push_raw (Utf.to_utf8 8 [to_wchar value; 0]) t.
Proof.
  intros Hok Hv Hroom. unfold push.
  destruct (sizeof_m_buffer t <=? m_buffer_count t) eqn:E;
    [apply Z.leb_le in E; lia|].
  destruct (value <? 0x80) eqn:E2; [apply Z.ltb_lt in E2; lia|].
  cbv zeta. rewrite (buffer_ok_mask t Hok).
  destruct (Z.of_nat _ <=? _) eqn:E3; [|apply Z.leb_gt in E3; lia].
  rewrite <- (buffer_ok_mask t Hok). apply store_bytes_fold.
Qed.

(** ** The input encoder *)

Lemma enhanced_vks_range (key_vk : Z) :
  existsb (Z.eqb key_vk) enhanced_vks = true -> 0x21 <= key_vk <= 0x2E.
Proof.
  unfold enhanced_vks. cbn [existsb]. rewrite !orb_true_iff, !Z.eqb_eq.
  unfold VK_UP, VK_DOWN, VK_LEFT, VK_RIGHT, VK_HOME, VK_END, VK_INSERT,
    VK_DELETE, VK_PRIOR, VK_NEXT. lia.
Qed.

Lemma truthy_false (x : Z) : x = 0 -> truthy x = false.
Proof. intros ->. reflexivity. Qed.

Lemma truthy_true (x : Z) : x <> 0 -> truthy x = true.
Proof. intros H. unfold truthy. now apply Z.eqb_neq in H as ->. Qed.

(** A flag outside [m] is clear in [Z.lor a m] exactly when it is in [a]. *)
Lemma land_lor_other (a m b : Z) :
  Z.land m b = 0 -> Z.land (Z.lor a m) b = Z.land a b.
Proof. intros H. now rewrite Z.land_lor_distr_l, H, Z.lor_0_r. Qed.


(** C1: for a key-down record without a Unicode value, with Ctrl held, the
    enhanced flag clear and a letter key A to Z, [read_console] pushes the
    single byte 0x00 whatever the letter is: the control code is computed
    in [key_vk], and [key_char], which is 0 on this path, is pushed. *)
Theorem ctrl_letter_pushes_nul (altgr_setting : bool) (key : KEY_EVENT_RECORD)
    (t : win_terminal_in) :
  bKeyDown key = true ->
  UnicodeChar key = 0 ->
  chr "A" <= wVirtualKeyCode key <= chr "Z" ->
  Z.land (dwControlKeyState key) ENHANCED_KEY = 0 ->
  Z.land (dwControlKeyState key) CTRL_PRESSED <> 0 ->
  buffer_ok t ->
  m_buffer_count t < sizeof_m_buffer t ->
  exists t',
    read_console_key altgr_setting key t = Some t'
    /\ pending t' = pending t ++ [0x00].
Proof.
  intros Hdown Huc Hvk Henh Hctrl Hok Hroom.
  change (chr "A") with 65 in *. change (chr "Z") with 90 in *.
  exists (push_raw t 0). split; [|now apply pending_push_raw].
  unfold read_console_key. rewrite Hdown, Huc. cbn [negb].
  replace (truthy 0) with false by reflexivity.
  rewrite andb_false_r. cbn [andb negb]. cbv beta iota zeta.
  change (0 =? 0) with true. cbv iota.
  destruct (existsb _ enhanced_vks) eqn:Evk;
    [apply enhanced_vks_range in Evk; lia|].
  rewrite (truthy_false _ Henh), (truthy_true _ Hctrl). cbn [negb].
  unfold ctrl_key_vk, CONTAINS, to_unsigned.
  change (chr "A") with 65. change (chr "Z") with 90.
  rewrite Z.mod_small by lia.
  destruct (_ <=? _) eqn:E; [|apply Z.leb_gt in E; lia].
  now rewrite push_narrow.
Qed.

Lemma push_narrow3 (a b c : Z) (t : win_terminal_in) :
  a < 0x80 -> b < 0x80 -> c < 0x80 ->
  m_buffer_count t + 3 <= sizeof_m_buffer t ->
  push c (push b (push a t)) = fold_left push_raw [a; b; c] t.
Proof.
  intros Ha Hb Hc Hroom. cbn [fold_left].
  rewrite (push_narrow a t) by lia.
  rewrite (push_narrow b) by (try rewrite push_raw_size; cbn; lia).
  rewrite (push_narrow c) by (try rewrite !push_raw_size; cbn; lia).
  reflexivity.
Qed.

Lemma buffer8_ok : buffer_ok buffer8.
Proof.
  split; [exists 3; split; [lia|reflexivity]|].
  unfold sizeof_m_buffer, buffer8.
  cbn [m_buffer m_buffer_head m_buffer_count length replicate]. lia.
Qed.

(** C8: a key-down record for Arrow-Up (virtual key [VK_UP], scan code
    0x48, no Unicode value) with Shift up appends exactly three bytes:
    ESC [ A when no Ctrl key is held, ESC O A when one is. *)
Theorem arrow_up_sequences (altgr_setting : bool) (key : KEY_EVENT_RECORD)
    (t : win_terminal_in) :
  bKeyDown key = true ->
  UnicodeChar key = 0 ->
  wVirtualKeyCode key = VK_UP ->
  wVirtualScanCode key = 0x48 ->
  Z.land (dwControlKeyState key) SHIFT_PRESSED = 0 ->
  buffer_ok t ->
  m_buffer_count t + 3 <= sizeof_m_buffer t ->
  exists t',
    read_console_key altgr_setting key t = Some t'
    /\ (Z.land (dwControlKeyState key) CTRL_PRESSED = 0 ->
        pending t' = pending t ++ [0x1b; chr "["; chr "A"])
    /\ (Z.land (dwControlKeyState key) CTRL_PRESSED <> 0 ->
        pending t' = pending t ++ [0x1b; chr "O"; chr "A"]).
Proof.
  intros Hdown Huc Hvk Hsc Hshift Hok Hroom.
  unfold read_console_key. rewrite Hdown, Huc, Hvk, Hsc. cbn [negb].
  replace (truthy 0) with false by reflexivity.
  rewrite andb_false_r. cbn [andb negb]. cbv beta iota zeta.
  change (0 =? 0) with true. cbv iota.
  change (existsb (Z.eqb VK_UP) enhanced_vks) with true. cbv iota.
  rewrite truthy_true.
  2:{ rewrite Z.land_lor_distr_l, Z.lor_eq_0_iff. intros [_ H].
      discriminate H. }
  change (mod_map_row mod_map 0x48) with (Some (chr "H", chr "A", chr "a")).
  cbv iota beta.
  rewrite !land_lor_other by reflexivity.
  rewrite (truthy_false _ Hshift). cbn [of_bool]. change (1 + 0 =? 1) with true.
  cbv iota. eexists. split; [reflexivity|].
  split; intros Hctrl.
  - rewrite (truthy_false _ Hctrl), push_narrow3 by (reflexivity || lia).
    destruct (fold_push_raw [0x1b; chr "["; chr "A"] t Hok) as [Hp _];
      [cbn [length]; lia|].
    rewrite Hp. reflexivity.
  - rewrite (truthy_true _ Hctrl), push_narrow3 by (reflexivity || lia).
    destruct (fold_push_raw [0x1b; chr "O"; chr "A"] t Hok) as [Hp _];
      [cbn [length]; lia|].
    rewrite Hp. reflexivity.
Qed.

Lemma arrow_up_sequences_witness :
  (pending <$> read_console_key true
     (mk_key true VK_UP 0x48 0 0) buffer8)
    = Some [0x1b; chr "["; chr "A"]
  /\ (pending <$> read_console_key true
        (mk_key true VK_UP 0x48 0 LEFT_CTRL_PRESSED) buffer8)
     = Some [0x1b; chr "O"; chr "A"].
Proof.
  pose proof buffer8_ok as Hok.
  split.
  - destruct (arrow_up_sequences true (mk_key true VK_UP 0x48 0 0) buffer8)
      as (t' & Hrun & Hplain & _);
      [reflexivity|reflexivity|reflexivity|reflexivity|reflexivity|exact Hok
      |unfold sizeof_m_buffer; cbn; lia|].
    rewrite Hrun. cbn [fmap option_fmap option_map]. f_equal.
    apply Hplain. reflexivity.
  - destruct (arrow_up_sequences true
                (mk_key true VK_UP 0x48 0 LEFT_CTRL_PRESSED) buffer8)
      as (t' & Hrun & _ & Hctrl);
      [reflexivity|reflexivity|reflexivity|reflexivity|reflexivity|exact Hok
      |unfold sizeof_m_buffer; cbn; lia|].
    rewrite Hrun. cbn [fmap option_fmap option_map]. f_equal.
    apply Hctrl. cbn. discriminate.
Defined.

Lemma ctrl_letter_pushes_nul_witness :
  (pending <$> read_console_key true
     (mk_key true (chr "A") 0x1e 0 LEFT_CTRL_PRESSED) buffer8)
  = Some [0x00].
Proof.
  destruct (ctrl_letter_pushes_nul true
              (mk_key true (chr "A") 0x1e 0 LEFT_CTRL_PRESSED) buffer8)
    as (t' & Hrun & Hpending);
    [reflexivity|reflexivity|split; discriminate|reflexivity|discriminate
    |exact buffer8_ok|unfold sizeof_m_buffer; cbn; lia|].
  rewrite Hrun. cbn [fmap option_fmap option_map]. f_equal. exact Hpending.
Defined.

(** ** UTF-8 bytes *)

Lemma lor_byte (a b : Z) :
  0 <= a < 256 -> 0 <= b < 256 -> 0 <= Z.lor a b < 256.
Proof.
  intros Ha Hb. split; [apply Z.lor_nonneg; lia|].
  destruct (Z.eq_dec (Z.lor a b) 0) as [->|Hne]; [lia|].
  assert (Hpos : 0 < Z.lor a b)
    by (pose proof (proj2 (Z.lor_nonneg a b) ltac:(lia)); lia).
  change 256 with (2 ^ 8). apply Z.log2_lt_pow2; [exact Hpos|].
  rewrite Z.log2_lor by lia.
  assert (Hlog : forall x, 0 <= x < 256 -> Z.log2 x < 8).
  { intros x Hx. destruct (Z.eq_dec x 0) as [->|Hx0]; [reflexivity|].
    apply Z.log2_lt_pow2; lia. }
  pose proof (Hlog a Ha). pose proof (Hlog b Hb). lia.
Qed.

Lemma low6 (x : Z) : 0 <= Z.land x 0x3F < 64.
Proof.
  change 0x3F with (Z.ones 6). rewrite Z.land_ones by lia.
  apply Z.mod_pos_bound. reflexivity.
Qed.

Lemma shiftr_bound (c n m : Z) :
  0 <= n -> 0 <= c < m * 2 ^ n -> 0 <= Z.shiftr c n < m.
Proof.
  intros Hn Hc. rewrite Z.shiftr_div_pow2 by lia.
  assert (0 < 2 ^ n) by (apply Z.pow_pos_nonneg; lia).
  split; [apply Z.div_pos; lia|apply Z.div_lt_upper_bound; lia].
Qed.

(** Up to U+FFFF the encoding has at most three bytes, each of them a
    byte. *)
Lemma utf8_encode_bmp (c : Z) :
  0 <= c <= 0xFFFF ->
  (length (Utf.utf8_encode c) <= 3)%nat
  /\ map to_uchar (Utf.utf8_encode c) = Utf.utf8_encode c.
Proof.
  intros Hc. unfold Utf.utf8_encode.
  assert (Hu : forall x, 0 <= x < 256 -> to_uchar x = x)
    by (intros x Hx; apply Z.mod_small; lia).
  pose proof (low6 c). pose proof (low6 (Z.shiftr c 6)).
  destruct (c <? 0x80) eqn:E1; [apply Z.ltb_lt in E1|apply Z.ltb_ge in E1].
  { cbn. rewrite Hu by lia. split; [lia|reflexivity]. }
  destruct (c <? 0x800) eqn:E2; [apply Z.ltb_lt in E2|apply Z.ltb_ge in E2].
  { pose proof (shiftr_bound c 6 32 ltac:(lia) ltac:(lia)).
    cbn [map length]. rewrite !Hu by (apply lor_byte; lia).
    split; [lia|reflexivity]. }
  destruct (c <? 0x10000) eqn:E3; [|apply Z.ltb_ge in E3; lia].
  pose proof (shiftr_bound c 12 16 ltac:(lia) ltac:(lia)).
  cbn [map length]. rewrite !Hu by (apply lor_byte; lia).
  split; [lia|reflexivity].
Qed.

Lemma utf8_encode_wide_length (c : Z) :
  0x80 <= c -> (2 <= length (Utf.utf8_encode c))%nat.
Proof.
  intros Hc. unfold Utf.utf8_encode.
  destruct (c <? 0x80) eqn:E1; [apply Z.ltb_lt in E1; lia|].
  destruct (c <? 0x800); [cbn; lia|].
  destruct (c <? 0x10000); cbn; lia.
Qed.

(** One UTF-16 unit other than NUL, followed by the terminator, is
    transcoded to the UTF-8 form of that unit. *)
Lemma to_utf8_unit (c : Z) :
  1 <= c <= 0xFFFF -> Utf.to_utf8 8 [c; 0] = Utf.utf8_encode c.
Proof.
  intros Hc. unfold Utf.to_utf8.
  assert (Hs : Utf.utf16_scalars [c; 0] = [c]).
  { cbn. destruct (c =? 0) eqn:E; [apply Z.eqb_eq in E; lia|].
    destruct (Utf.is_lead_surrogate c); reflexivity. }
  rewrite Hs. cbn [flat_map]. rewrite app_nil_r.
  apply take_ge. destruct (utf8_encode_bmp c ltac:(lia)) as [Hlen _].
  change (Z.to_nat 8) with 8%nat. lia.
Qed.




(** ** The ring buffer invariant *)

(** C2: [count <= capacity] is not kept.  With one free slot left, a push
    of a value of 0x80 or above (two or three UTF-8 bytes) stores nothing
    and still adds the length of the encoding to the count, which ends up
    above the capacity. *)
Theorem push_count_exceeds_capacity (value : Z) (t : win_terminal_in) :
  buffer_ok t ->
  m_buffer_count t = sizeof_m_buffer t - 1 ->
  0x80 <= value <= 0xFFFF ->
  m_buffer (push value t) = m_buffer t
  /\ sizeof_m_buffer (push value t) < m_buffer_count (push value t).
Proof.
  intros Hok Hcount Hv.
  pose proof (utf8_encode_wide_length value ltac:(lia)) as Hlen.
  assert (Hw : to_wchar value = value) by (apply Z.mod_small; lia).
  unfold push.
  destruct (sizeof_m_buffer t <=? m_buffer_count t) eqn:E;
    [apply Z.leb_le in E; lia|].
  destruct (value <? 0x80) eqn:E2; [apply Z.ltb_lt in E2; lia|].
  cbv zeta. rewrite Hw, to_utf8_unit, (buffer_ok_mask t Hok) by lia.
  destruct (Z.of_nat _ <=? _) eqn:E3; [apply Z.leb_le in E3; lia|].
  unfold sizeof_m_buffer in *. cbn. split; [reflexivity|lia].
Qed.

Lemma push_count_exceeds_capacity_witness :
  let t := Nat.iter 7 (push 0x41) buffer8 in
  m_buffer (push 0xE9 t) = m_buffer t
  /\ sizeof_m_buffer (push 0xE9 t) < m_buffer_count (push 0xE9 t).
Proof.
  apply push_count_exceeds_capacity.
  - split; [exists 3; split; [lia|reflexivity]|].
    vm_compute. repeat split; discriminate.
  - reflexivity.
  - split; discriminate.
Defined.

(** The run behind the witness: seven pushes of [A] into an empty buffer
    of eight slots, then a push of U+00E9.  The count is 9, and nine pops
    return the seven letters, the unused slot, and the first letter once
    more. *)
Example push_overrun_run :
  let t := push 0xE9 (Nat.iter 7 (push 0x41) buffer8) in
  sizeof_m_buffer t = 8
  /\ m_buffer_count t = 9
  /\ pending t = [0x41; 0x41; 0x41; 0x41; 0x41; 0x41; 0x41; 0x00; 0x41].
Proof. repeat split. Qed.

(** What does hold: as long as the count is within the capacity, a push
    leaves the pending bytes in place, whatever it is given. *)
Lemma push_keeps_pending (value : Z) (t : win_terminal_in) (i : nat) :
  buffer_ok t ->
  m_buffer_count t <= sizeof_m_buffer t ->
  Z.of_nat i < m_buffer_count t ->
  slot (push value t) i = slot t i.
Proof.
  intros Hok Hcount Hi. unfold push.
  destruct (sizeof_m_buffer t <=? m_buffer_count t) eqn:E; [reflexivity|].
  apply Z.leb_gt in E.
  assert (Hraw : forall b, slot (push_raw t b) i = slot t i).
  { intros b.
    pose proof (pending_push_raw t b Hok E) as Hp.
    rewrite (pending_slots _ (push_raw_ok t b Hok)), (pending_slots t Hok)
      in Hp.
    apply (f_equal (fun l => l !! i)) in Hp.
    rewrite lookup_app_l in Hp by (rewrite length_map, length_seq; lia).
    rewrite !list_lookup_fmap, !lookup_seq_lt in Hp
      by (cbn [m_buffer_count push_raw set_buffer]; lia).
    cbn in Hp. now injection Hp. }
  destruct (value <? 0x80); [apply Hraw|].
  cbv zeta. rewrite (buffer_ok_mask t Hok).
  destruct (Z.of_nat _ <=? _) eqn:E3; [|reflexivity].
  apply Z.leb_le in E3. rewrite <- (buffer_ok_mask t Hok).
  set (utf8 := Utf.to_utf8 8 [to_wchar value; 0]) in *.
  pose proof (store_bytes_fold utf8 t) as Hfold.
  destruct (fold_push_raw utf8 t Hok ltac:(lia)) as (Hp & Hok' & Hc' & Hs').
  rewrite Hfold.
  rewrite (pending_slots _ Hok'), (pending_slots t Hok), Hc' in Hp.
  apply (f_equal (fun l => l !! i)) in Hp.
  rewrite lookup_app_l in Hp by (rewrite length_map, length_seq; lia).
  rewrite !list_lookup_fmap, !lookup_seq_lt in Hp by lia.
  cbn in Hp. now injection Hp.
Qed.

(** ** The decoder across chunk boundaries *)

Module DecoderFacts.
Import Ecma48.

Lemma steps_app (a b : list Z) :
  forall s : ecma48_state * list Z,
    steps s (a ++ b)
    = (fst (steps s a) ++ fst (steps (snd (steps s a)) b),
       snd (steps (snd (steps s a)) b)).
Proof.
  induction a as [|c a IH]; intros s; cbn [app steps].
  - cbn. now destruct (steps s b).
  - destruct (step s c) as [codes s1]. rewrite IH.
    destruct (steps s1 a) as [codes' s2]. cbn [fst snd].
    destruct (steps s2 b) as [codes'' s3]. cbn [fst snd].
    now rewrite app_assoc.
Qed.

(** Inside a sequence no text run is open. *)
Lemma step_no_open_run (s : ecma48_state * list Z) (c : Z) :
  (fst s <> state_unknown -> snd s = []) ->
  fst (snd (step s c)) <> state_unknown -> snd (snd (step s c)) = [].
Proof.
  destruct s as [[| |seq] run]; cbn [fst snd step]; intros Hrun.
  - destruct (c =? 0x1b); [reflexivity|].
    destruct (c <? 0x20); cbn; congruence.
  - destruct (c =? c1_csi); cbn; [intros _; now apply Hrun|congruence].
  - destruct (is_param_byte c); cbn; [intros _; now apply Hrun|congruence].
Qed.

Lemma steps_no_open_run (chars : list Z) :
  forall s : ecma48_state * list Z,
    (fst s <> state_unknown -> snd s = []) ->
    fst (snd (steps s chars)) <> state_unknown ->
    snd (snd (steps s chars)) = [].
Proof.
  induction chars as [|c chars IH]; intros s Hrun; cbn [steps].
  - exact Hrun.
  - pose proof (step_no_open_run s c Hrun) as Hstep.
    destruct (step s c) as [codes s1]. cbn [fst snd] in Hstep.
    specialize (IH s1 Hstep).
    destruct (steps s1 chars) as [codes' s2]. exact IH.
Qed.

Lemma ecma48_iter_unfold (chars : list Z) (st : ecma48_state) :
  ecma48_iter chars st
  = (fst (steps (st, []) chars) ++ flush (snd (snd (steps (st, []) chars))),
     fst (snd (steps (st, []) chars))).
Proof.
  unfold ecma48_iter. now destruct (steps (st, []) chars) as [codes [st' run]].
Qed.

(** A chunk boundary inside a sequence is invisible: the codes of the two
    chunks, in order, are the codes of their concatenation. *)
Lemma ecma48_iter_app (a b : list Z) (st : ecma48_state) :
  snd (ecma48_iter a st) <> state_unknown ->
  ecma48_iter (a ++ b) st
  = (fst (ecma48_iter a st) ++ fst (ecma48_iter b (snd (ecma48_iter a st))),
     snd (ecma48_iter b (snd (ecma48_iter a st)))).
Proof.
  rewrite !ecma48_iter_unfold, steps_app. cbn [fst snd]. intros Hmid.
  pose proof (steps_no_open_run a (st, []) ltac:(reflexivity) Hmid) as Hrun.
  destruct (steps (st, []) a) as [codes [st1 run]]. cbn [fst snd] in *.
  subst run. cbn [flush]. now rewrite app_nil_r, app_assoc.
Qed.

Lemma steps_params (params : list Z) :
  forall (seq run : list Z),
    Forall (fun c => is_param_byte c = true) params ->
    steps (state_csi seq, run) params = ([], (state_csi (seq ++ params), run)).
Proof.
  induction params as [|c params IH]; intros seq run Hparams; cbn [steps].
  - now rewrite app_nil_r.
  - inversion Hparams as [|? ? Hc Hrest]; subst.
    cbn [step]. rewrite Hc, (IH _ _ Hrest), <- app_assoc. reflexivity.
Qed.

(** A sequence that starts where no other is open, cut anywhere before its
    final character, leaves the decoder inside the sequence. *)
Lemma steps_inside_csi (params : list Z) (final : Z) (k : nat)
    (run : list Z) :
  Forall (fun c => is_param_byte c = true) params ->
  (0 < k < length (csi_sequence params final))%nat ->
  fst (snd (steps (state_unknown, run) (take k (csi_sequence params final))))
  <> state_unknown.
Proof.
  unfold csi_sequence.
  intros Hparams Hk. rewrite !length_app in Hk. cbn [length] in Hk.
  destruct k as [|[|k]]; [lia| |].
  - cbn. destruct (flush run); discriminate.
  - change (take (S (S k)) ([0x1b; 0x5b] ++ params ++ [final]))
      with ([0x1b; 0x5b] ++ take k (params ++ [final])).
    rewrite steps_app, take_app_le by lia.
    change (snd (steps (state_unknown, run) [0x1b; 0x5b]))
      with (state_csi [0x1b; 0x5b], @nil Z).
    rewrite steps_params by (now apply Forall_take).
    cbn. discriminate.
Qed.

(** The whole sequence, met where no other is open, is one CSI code. *)
Lemma steps_whole_csi (params : list Z) (final : Z) (run : list Z) :
  Forall (fun c => is_param_byte c = true) params ->
  is_param_byte final = false ->
  steps (state_unknown, run) (csi_sequence params final)
  = (flush run ++ [type_c1 c1_csi (csi_sequence params final)],
     (state_unknown, [])).
Proof.
  unfold csi_sequence.
  intros Hparams Hfinal. rewrite steps_app.
  change (snd (steps (state_unknown, run) [0x1b; 0x5b]))
    with (state_csi [0x1b; 0x5b], @nil Z).
  change (fst (steps (state_unknown, run) [0x1b; 0x5b]))
    with (flush run ++ []).
  rewrite steps_app, steps_params by exact Hparams.
  cbn [fst snd steps step flush app]. rewrite Hfinal.
  cbn [flush app fst snd]. now rewrite !app_nil_r.
Qed.

End DecoderFacts.

(** [write_code] neither reads nor changes the parse state. *)
Lemma write_code_state (st : Ecma48.ecma48_state) (code : Ecma48.ecma48_code)
    (h : host_console) (t : win_terminal) :
  write_code (h, set_state st t) code
  = (fst (write_code (h, t) code), set_state st (snd (write_code (h, t) code))).
Proof.
  destruct code as [chars|c0|c chars]; cbn [write_code fst snd];
    try reflexivity.
  unfold write_c1. cbn [m_enable_c1 set_state].
  destruct (m_enable_c1 t); cbn [negb fst snd]; [|reflexivity].
  destruct (c =? Ecma48.c1_csi); cbn [negb fst snd]; [|reflexivity].
  destruct (Ecma48.decode_csi chars 32) as [final params].
  destruct (final =? chr "m"); reflexivity.
Qed.

Lemma write_codes_state (codes : list Ecma48.ecma48_code) :
  forall (st : Ecma48.ecma48_state) (h : host_console) (t : win_terminal),
    fold_left write_code codes (h, set_state st t)
    = (fst (fold_left write_code codes (h, t)),
       set_state st (snd (fold_left write_code codes (h, t)))).
Proof.
  induction codes as [|code codes IH]; intros st h t; cbn [fold_left].
  - reflexivity.
  - rewrite write_code_state.
    destruct (write_code (h, t) code) as [h1 t1]. cbn [fst snd]. apply IH.
Qed.

Lemma write_unfold (chars : list Z) (h : host_console) (t : win_terminal) :
  write chars h t
  = (fst (fold_left write_code (fst (Ecma48.ecma48_iter chars (m_state t)))
                    (h, t)),
     set_state (snd (Ecma48.ecma48_iter chars (m_state t)))
       (snd (fold_left write_code
                       (fst (Ecma48.ecma48_iter chars (m_state t))) (h, t)))).
Proof.
  unfold write. destruct (Ecma48.ecma48_iter chars (m_state t)) as [codes st].
  cbn [fst snd]. apply write_codes_state.
Qed.

(** Writing two chunks whose boundary lies inside a sequence is writing
    their concatenation. *)
Lemma write_app (a b : list Z) (h : host_console) (t : win_terminal) :
  snd (Ecma48.ecma48_iter a (m_state t)) <> Ecma48.state_unknown ->
  write (a ++ b) h t
  = write b (fst (write a h t)) (snd (write a h t)).
Proof.
  intros Hmid. rewrite (write_unfold (a ++ b)), (write_unfold a).
  cbn [fst snd]. rewrite (write_unfold b). cbn [m_state set_state fst snd].
  rewrite (DecoderFacts.ecma48_iter_app a b _ Hmid). cbn [fst snd].
  rewrite fold_left_app.
  destruct (Ecma48.ecma48_iter a (m_state t)) as [codes1 st1]. cbn [fst snd].
  destruct (fold_left write_code codes1 (h, t)) as [h1 t1]. cbn [fst snd].
  destruct (Ecma48.ecma48_iter b st1) as [codes2 st2]. cbn [fst snd].
  rewrite (write_codes_state codes2 st1 h1 t1). cbn [fst snd].
  reflexivity.
Qed.

(** C6: a CSI sequence that starts where no other sequence is open, cut
    at any point strictly inside it and fed through two calls of [write],
    is decoded to the same codes (the sequence as one CSI code among them)
    and leaves the host console and the session, attribute state included,
    as one call with the whole string does. *)
Theorem write_split_csi (pre params post : list Z) (final : Z) (k : nat)
    (h : host_console) (t : win_terminal) :
  snd (Ecma48.ecma48_iter pre (m_state t)) = Ecma48.state_unknown ->
  Forall (fun c => Ecma48.is_param_byte c = true) params ->
  Ecma48.is_param_byte final = false ->
  (0 < k < length (csi_sequence params final))%nat ->
  let whole := pre ++ csi_sequence params final ++ post in
  let first := pre ++ take k (csi_sequence params final) in
  let second := drop k (csi_sequence params final) ++ post in
  let r1 := Ecma48.ecma48_iter first (m_state t) in
  let r2 := Ecma48.ecma48_iter second (snd r1) in
  Ecma48.ecma48_iter whole (m_state t) = (fst r1 ++ fst r2, snd r2)
  /\ In (Ecma48.type_c1 Ecma48.c1_csi (csi_sequence params final))
        (fst r1 ++ fst r2)
  /\ write whole h t
     = write second (fst (write first h t)) (snd (write first h t)).
Proof.
  intros Hpre Hparams Hfinal Hk whole first second r1 r2.
  assert (Hcut : whole = first ++ second).
  { unfold whole, first, second.
    rewrite <- (take_drop k (csi_sequence params final)) at 1.
    now rewrite <- !app_assoc. }
  rewrite DecoderFacts.ecma48_iter_unfold in Hpre. cbn [snd] in Hpre.
  assert (Hmid : snd (Ecma48.ecma48_iter first (m_state t))
                 <> Ecma48.state_unknown).
  { unfold first. rewrite DecoderFacts.ecma48_iter_unfold. cbn [snd].
    rewrite DecoderFacts.steps_app. cbn [snd].
    destruct (Ecma48.steps (m_state t, []) pre) as [codes [st run]].
    cbn [fst snd] in *. subst st.
    now apply DecoderFacts.steps_inside_csi. }
  assert (Hcodes : Ecma48.ecma48_iter whole (m_state t)
                   = (fst r1 ++ fst r2, snd r2))
    by (rewrite Hcut; now apply DecoderFacts.ecma48_iter_app).
  split; [exact Hcodes|]. split.
  - apply (f_equal fst) in Hcodes. cbn [fst] in Hcodes. rewrite <- Hcodes.
    unfold whole. rewrite DecoderFacts.ecma48_iter_unfold. cbn [fst].
    rewrite DecoderFacts.steps_app. cbn [fst snd].
    destruct (Ecma48.steps (m_state t, []) pre) as [codes [st run]].
    cbn [fst snd] in *. subst st.
    rewrite DecoderFacts.steps_app, DecoderFacts.steps_whole_csi
      by assumption.
    cbn [fst snd]. rewrite !in_app_iff. left. right. left. right.
    now left.
  - rewrite Hcut. now apply write_app.
Qed.

Lemma write_split_csi_witness :
  let h := console 7 in
  let t := session 7 true in
  write ([0x41] ++ csi_sequence [0x33; 0x31] 0x6d ++ []) h t
  = write (drop 3 (csi_sequence [0x33; 0x31] 0x6d) ++ [])
          (fst (write ([0x41] ++ take 3 (csi_sequence [0x33; 0x31] 0x6d)) h t))
          (snd (write ([0x41] ++ take 3 (csi_sequence [0x33; 0x31] 0x6d)) h t)).
Proof.
  intros h t.
  apply (write_split_csi [0x41] [0x33; 0x31] [] 0x6d 3 h t).
  - reflexivity.
  - repeat constructor.
  - reflexivity.
  - cbn. lia.
Defined.

(** The example of the specification: ESC [ 3 in one call and 1 m in the
    next set the foreground as ESC [ 3 1 m in one call does. *)
Example write_split_31m :
  let h := console 7 in
  let t := session 7 true in
  let two := write [0x31; 0x6d] (fst (write [0x1b; 0x5b; 0x33] h t))
                   (snd (write [0x1b; 0x5b; 0x33] h t)) in
  two = write [0x1b; 0x5b; 0x33; 0x31; 0x6d] h t
  /\ m_attr (t_out (snd two)) = 0x04
  /\ wAttributes (fst two) = 0x04.
Proof. repeat split. Qed.

(** ** Lines of the subprocess output *)

Module LuaExecFacts.
Import LuaExec.

Lemma is_eol_not_nul (c : Z) : is_eol c = true -> c <> 0.
Proof.
  unfold is_eol. rewrite orb_true_iff, !Z.eqb_eq. lia.
Qed.

(** Every text is a run without [f]-bytes followed by nothing or by an
    [f]-byte. *)
Lemma span (f : Z -> bool) (s : list Z) :
  exists l r,
    s = l ++ r
    /\ Forall (fun c => f c = false) l
    /\ (forall c, head r = Some c -> f c = true).
Proof.
  induction s as [|c s (l & r & Hs & Hl & Hr)].
  - exists [], []. repeat split; [constructor|discriminate].
  - destruct (f c) eqn:Hc.
    + exists [], (c :: s). repeat split; [constructor|].
      intros c' [= <-]. exact Hc.
    + exists (c :: l), r. subst s. repeat split; [now constructor|exact Hr].
Qed.

Section Scan.
Variable l : list Z.
Hypothesis l_text : Forall (fun c => c <> 0) l.
Hypothesis l_no_eol : Forall (fun c => is_eol c = false) l.

Lemma strpbrk_eols_end : strpbrk_eols l = None.
Proof.
  induction l as [|c l' IH]; [reflexivity|].
  inversion l_text; inversion l_no_eol; subst. cbn.
  destruct (c =? 0) eqn:E; [reflexivity|].
  rewrite H5, IH by assumption. reflexivity.
Qed.

Lemma strpbrk_eols_found (e : Z) (r : list Z) :
  is_eol e = true -> strpbrk_eols (l ++ e :: r) = Some (length l).
Proof.
  intros He. induction l as [|c l' IH]; cbn.
  - rewrite He. destruct (e =? 0) eqn:E; [|reflexivity].
    apply Z.eqb_eq in E. now apply is_eol_not_nul in He.
  - inversion l_text; inversion l_no_eol; subst.
    destruct (c =? 0) eqn:E; [apply Z.eqb_eq in E; contradiction|].
    rewrite H5, IH by assumption. reflexivity.
Qed.

Lemma strlen_end : strlen l = length l.
Proof.
  induction l as [|c l' IH]; [reflexivity|].
  inversion l_text; inversion l_no_eol; subst. cbn.
  destruct (c =? 0) eqn:E; [apply Z.eqb_eq in E; contradiction|].
  now rewrite IH.
Qed.

Lemma strlen_nul (r : list Z) : strlen (l ++ 0 :: r) = length l.
Proof.
  induction l as [|c l' IH]; [reflexivity|].
  inversion l_text; inversion l_no_eol; subst. cbn.
  destruct (c =? 0) eqn:E; [apply Z.eqb_eq in E; contradiction|].
  now rewrite IH.
Qed.

Lemma pieces_run (r : list Z) :
  pieces (l ++ r) = (l ++ fst (pieces r), snd (pieces r)).
Proof.
  induction l as [|c l' IH]; cbn [app pieces].
  - now destruct (pieces r).
  - inversion l_text; inversion l_no_eol; subst.
    rewrite IH by assumption. now rewrite H5.
Qed.

End Scan.

Lemma byte_at_app (a r : list Z) (c : Z) :
  byte_at (a ++ c :: r) (length a) = c.
Proof.
  unfold byte_at. rewrite lookup_app_r by lia.
  now rewrite Nat.sub_diag.
Qed.

Lemma zero_eols_eq (room : nat) (buf : list Z) (eol : nat) :
  zero_eols room buf eol
  = match room with
    | O => (<[eol := 0]> buf, S eol)
    | S room' =>
        if is_eol (byte_at (<[eol := 0]> buf) (S eol))
        then zero_eols room' (<[eol := 0]> buf) (S eol)
        else (<[eol := 0]> buf, S eol)
    end.
Proof. destruct room; reflexivity. Qed.

(** The do-while loop clears the line end it starts on and every CR and
    LF that follows directly. *)
Lemma zero_eols_run (es : list Z) :
  forall (a : list Z) (e : Z) (r : list Z),
    Forall (fun c => is_eol c = true) es ->
    (forall c, head r = Some c -> is_eol c = false) ->
    zero_eols (length es + length r) (a ++ e :: es ++ r) (length a)
    = (a ++ 0 :: replicate (length es) 0 ++ r, S (length a + length es)).
Proof.
  induction es as [|e' es IH]; intros a e r Hes Hr.
  - cbn [app length replicate Nat.add]. rewrite zero_eols_eq.
    rewrite insert_app_r_alt, Nat.sub_diag by lia. cbn [insert list_insert].
    rewrite Nat.add_0_r.
    destruct (length r) eqn:Hlen;
      [now apply length_zero_iff_nil in Hlen as ->|].
    replace (a ++ 0 :: r) with ((a ++ [0]) ++ r) by now rewrite <- app_assoc.
    replace (S (length a)) with (length (a ++ [0]))
      by (rewrite length_app; cbn; lia).
    destruct r as [|c r]; [discriminate|].
    rewrite byte_at_app. now rewrite (Hr c eq_refl).
  - inversion Hes as [|? ? He' Hes']; subst.
    cbn [app length replicate Nat.add]. rewrite zero_eols_eq.
    rewrite insert_app_r_alt, Nat.sub_diag by lia. cbn [insert list_insert].
    replace (a ++ 0 :: e' :: es ++ r) with ((a ++ [0]) ++ e' :: es ++ r)
      by now rewrite <- app_assoc.
    replace (S (length a)) with (length (a ++ [0]))
      by (rewrite length_app; cbn; lia).
    rewrite byte_at_app. rewrite He'.
    rewrite (IH (a ++ [0]) e' r Hes' Hr), <- app_assoc, length_app.
    cbn [app length]. f_equal. lia.
Qed.

Lemma c_string_at (a l r : list Z) :
  Forall (fun c => c <> 0) l -> Forall (fun c => is_eol c = false) l ->
  c_string (a ++ l ++ 0 :: r) (length a) = l.
Proof.
  intros Hl Hl'. unfold c_string. rewrite drop_app_length.
  rewrite strlen_nul by assumption. now rewrite take_app_length.
Qed.

Lemma c_string_tail (a l : list Z) :
  Forall (fun c => c <> 0) l -> Forall (fun c => is_eol c = false) l ->
  c_string (a ++ l) (length a) = l.
Proof.
  intros Hl Hl'. unfold c_string. rewrite drop_app_length.
  rewrite strlen_end by assumption. now rewrite firstn_all.
Qed.

Lemma lines_kept (s : list Z) :
  lines s = fst (pieces s) :: List.filter nonempty (snd (pieces s)).
Proof. unfold lines. now destruct (pieces s). Qed.

Lemma kept_eols (es r : list Z) :
  Forall (fun c => is_eol c = true) es -> kept (es ++ r) = kept r.
Proof.
  induction 1 as [|e es He _ IH]; [reflexivity|].
  unfold kept in *. cbn [app pieces].
  destruct (pieces (es ++ r)) as [p ps]. rewrite He. exact IH.
Qed.

Lemma kept_text (c : Z) (r : list Z) :
  is_eol c = false -> kept (c :: r) = lines (c :: r).
Proof.
  intros Hc. rewrite lines_kept. unfold kept. cbn [pieces].
  destruct (pieces r) as [p ps]. rewrite Hc. reflexivity.
Qed.

Lemma lines_clean (l : list Z) :
  Forall (fun c => c <> 0) l -> Forall (fun c => is_eol c = false) l ->
  lines l = [l].
Proof.
  intros Hl Hl'. rewrite lines_kept.
  rewrite <- (app_nil_r l) at 1 2. rewrite pieces_run by assumption.
  cbn. now rewrite app_nil_r.
Qed.

Lemma lines_cut (l es r : list Z) (e : Z) :
  Forall (fun c => c <> 0) l -> Forall (fun c => is_eol c = false) l ->
  is_eol e = true -> Forall (fun c => is_eol c = true) es ->
  lines (l ++ e :: es ++ r) = l :: kept r.
Proof.
  intros Hl Hl' He Hes. rewrite lines_kept, pieces_run by assumption.
  cbn [pieces fst snd]. rewrite He.
  destruct (pieces (es ++ r)) as [p ps] eqn:Hp. cbn [fst snd].
  rewrite app_nil_r. f_equal.
  rewrite <- (kept_eols es r Hes). unfold kept. now rewrite Hp.
Qed.

Lemma next_line_clean (a l : list Z) :
  Forall (fun c => c <> 0) l -> Forall (fun c => is_eol c = false) l ->
  next_line (a ++ l) (length a) = (a ++ l, None).
Proof.
  intros Hl Hl'. unfold next_line. rewrite drop_app_length.
  rewrite strpbrk_eols_end, strlen_end by assumption.
  unfold byte_at. rewrite lookup_ge_None_2 by (rewrite length_app; lia).
  reflexivity.
Qed.

Lemma next_line_cut (a l es r : list Z) (e : Z) :
  Forall (fun c => c <> 0) l -> Forall (fun c => is_eol c = false) l ->
  is_eol e = true -> Forall (fun c => is_eol c = true) es ->
  (forall c, head r = Some c -> is_eol c = false) ->
  Forall (fun c => c <> 0) r ->
  next_line (a ++ l ++ e :: es ++ r) (length a)
  = (a ++ l ++ 0 :: replicate (length es) 0 ++ r,
     match r with
     | [] => None
     | _ :: _ => Some (length (a ++ l ++ 0 :: replicate (length es) 0))
     end).
Proof.
  intros Hl Hl' He Hes Hr Hr0. unfold next_line. rewrite drop_app_length.
  rewrite strpbrk_eols_found by assumption.
  replace (length (a ++ l ++ e :: es ++ r) - S (length a + length l))%nat
    with (length es + length r)%nat
    by (rewrite !length_app; cbn [length]; rewrite length_app; lia).
  rewrite (app_assoc a l), <- (length_app a l).
  rewrite zero_eols_run by assumption.
  rewrite <- (app_assoc a l). f_equal.
  replace (S (length (a ++ l) + length es))
    with (length (a ++ l ++ 0 :: replicate (length es) 0))
    by (rewrite !length_app; cbn [length]; rewrite length_replicate; lia).
  replace (a ++ l ++ 0 :: replicate (length es) 0 ++ r)
    with ((a ++ l ++ 0 :: replicate (length es) 0) ++ r)
    by (now rewrite <- !app_assoc).
  destruct r as [|c r].
  - unfold byte_at. rewrite lookup_ge_None_2 by (rewrite app_nil_r; lia).
    reflexivity.
  - rewrite byte_at_app. inversion Hr0; subst.
    now rewrite truthy_true.
Qed.

(** The loop of [lua_execute], started at the text [s] with enough fuel,
    ends and files the lines of [s] under the next keys. *)
Lemma extract_lines_spec (fuel : nat) :
  forall (s a : list Z) (count : Z) (tbl : gmap Z (list Z)),
    Forall (fun c => c <> 0) s ->
    (length s < fuel)%nat ->
    extract_lines fuel (a ++ s) (length a) count tbl
    = Some (number_from count (lines s) tbl).
Proof.
  induction fuel as [|fuel IH]; intros s a count tbl Hs Hfuel; [lia|].
  cbn [extract_lines].
  destruct (span is_eol s) as (l & rest & -> & Hl & Hrest).
  apply Forall_app in Hs as [Hl0 Hrest0].
  destruct rest as [|e rest].
  - rewrite app_nil_r in *. rewrite next_line_clean by assumption.
    rewrite c_string_tail, lines_clean by assumption. reflexivity.
  - specialize (Hrest e eq_refl).
    destruct (span (fun c => negb (is_eol c)) rest)
      as (es & r & -> & Hes & Hr).
    assert (Hes' : Forall (fun c => is_eol c = true) es).
    { eapply Forall_impl; [exact Hes|]. cbn. intros c Hc.
      now apply negb_false_iff. }
    assert (Hr' : forall c, head r = Some c -> is_eol c = false).
    { intros c Hc. apply negb_true_iff. now apply Hr. }
    inversion Hrest0 as [|? ? _ Hrest1]; subst.
    apply Forall_app in Hrest1 as [_ Hr0].
    rewrite next_line_cut, lines_cut by assumption.
    rewrite c_string_at by assumption.
    destruct r as [|c r].
    + reflexivity.
    + rewrite kept_text by (now apply Hr').
      replace (a ++ l ++ 0 :: replicate (length es) 0 ++ c :: r)
        with ((a ++ l ++ 0 :: replicate (length es) 0) ++ c :: r)
        by (now rewrite <- !app_assoc).
      rewrite IH; [reflexivity|exact Hr0|].
      rewrite !length_app in Hfuel. cbn [length] in Hfuel.
      rewrite !length_app in Hfuel. cbn [length] in *. lia.
Qed.

(** The keys of the table: [count + 1] up to [count + n]. *)
Lemma number_from_lookup (ls : list (list Z)) :
  forall (count : Z) (tbl : gmap Z (list Z)) (i : Z),
    number_from count ls tbl !! i
    = if (count <? i) && (i <=? count + Z.of_nat (length ls))
      then ls !! Z.to_nat (i - count - 1)
      else tbl !! i.
Proof.
  induction ls as [|l ls IH]; intros count tbl i; cbn [number_from length].
  - destruct (count <? i) eqn:E1, (i <=? count + Z.of_nat 0) eqn:E2;
      cbn [andb]; try reflexivity.
    apply Z.ltb_lt in E1. apply Z.leb_le in E2. lia.
  - rewrite IH.
    destruct (count + 1 <? i) eqn:E1;
      [apply Z.ltb_lt in E1|apply Z.ltb_ge in E1];
    destruct (i <=? count + 1 + Z.of_nat (length ls)) eqn:E2;
      [apply Z.leb_le in E2|apply Z.leb_gt in E2
      |apply Z.leb_le in E2|apply Z.leb_gt in E2]; cbn [andb].
    + replace (count <? i) with true by (symmetry; apply Z.ltb_lt; lia).
      replace (i <=? count + Z.of_nat (S (length ls))) with true
        by (symmetry; apply Z.leb_le; lia).
      cbn [andb].
      replace (Z.to_nat (i - count - 1))
        with (S (Z.to_nat (i - (count + 1) - 1))) by lia.
      reflexivity.
    + replace (i <=? count + Z.of_nat (S (length ls))) with false
        by (symmetry; apply Z.leb_gt; lia).
      rewrite andb_false_r. apply lookup_insert_ne. lia.
    + destruct (Z.eq_dec i (count + 1)) as [->|Hne].
      * replace (count <? count + 1) with true
          by (symmetry; apply Z.ltb_lt; lia).
        replace (count + 1 <=? count + Z.of_nat (S (length ls))) with true
          by (symmetry; apply Z.leb_le; lia).
        cbn [andb]. rewrite lookup_insert_eq.
        replace (count + 1 - count - 1) with 0 by lia. reflexivity.
      * replace (count <? i) with false by (symmetry; apply Z.ltb_ge; lia).
        cbn [andb]. apply lookup_insert_ne. lia.
    + lia.
Qed.


(** C10 (as amended): called with a command string, a job object and a
    process that could be created, an output without NUL bytes and an exit
    code the system reports, [lua_execute] returns a table and that exit
    code; the keys of the table are 1 to n, and they hold the text before
    the first line end followed by the non-empty pieces between later CR
    and LF bytes, in order.  Called without argument, with a first
    argument that is neither a string nor a number, or when the job or
    the process cannot be created, it returns no values. *)
Theorem lua_execute_returns (rt : lua_runtime) (os : exec_host)
    (args : list lua_value) :
  (forall (cmd : list Z) (rest : list lua_value) (p : process) (code : Z),
      args = LString cmd :: rest ->
      create_job os = true ->
      launch os cmd (exec_timeout rt args) = Launched p ->
      Forall (fun c => c <> 0) (stdout_bytes p) ->
      exit_code p = Some code ->
      exists tbl : gmap Z (list Z),
        lua_execute rt os args = Some [LTable tbl; LNumber code]
        /\ forall i : Z,
            tbl !! i
            = if (0 <? i) && (i <=? Z.of_nat (length (lines (stdout_bytes p))))
              then lines (stdout_bytes p) !! Z.to_nat (i - 1)
              else None)
  /\ (args = []
      \/ lua_isstring (default LNil (args !! 0%nat)) = false
      \/ create_job os = false
      \/ (exists last_error : Z,
            launch os (lua_tostring rt (default LNil (args !! 0%nat)))
                   (exec_timeout rt args) = Failed last_error) ->
      lua_execute rt os args = Some []).
Proof.
  split.
  - intros cmd rest p code -> Hjob Hlaunch Hout Hcode.
    exists (number_from 0 (lines (stdout_bytes p)) ∅). split.
    + unfold lua_execute. cbn [length bool_decide decide_rel orb negb
        lookup list_lookup default lua_isstring lua_tostring].
      change (bool_decide (S (length rest) = 0%nat)) with false.
      cbn [orb negb from_option id]. rewrite Hjob. cbn [negb].
      cbn [from_option id lua_tostring]. rewrite Hlaunch.
      rewrite (extract_lines_spec _ (stdout_bytes p) [] 0 ∅ Hout) by lia.
      rewrite Hcode. reflexivity.
    + intros i. rewrite number_from_lookup, lookup_empty.
      replace (i - 0 - 1) with (i - 1) by lia.
      destruct ((0 <? i) && _); reflexivity.
  - intros [->|[Hstr|[Hjob|[last_error Hfail]]]]; unfold lua_execute.
    + reflexivity.
    + rewrite Hstr. cbn [negb]. now rewrite orb_true_r.
    + destruct (_ || _); [reflexivity|]. now rewrite Hjob.
    + destruct (_ || _); [reflexivity|].
      destruct (create_job os); [|reflexivity]. cbn [negb].
      now rewrite Hfail.
Qed.

Lemma lua_execute_returns_witness :
  exists tbl : gmap Z (list Z),
    lua_execute plain_runtime (os_printing [0x61; 13; 10; 0x62; 10] 3)
                [LString [0x78]]
    = Some [LTable tbl; LNumber 3]
    /\ tbl !! 1 = Some [0x61] /\ tbl !! 2 = Some [0x62] /\ tbl !! 3 = None.
Proof.
  destruct (lua_execute_returns plain_runtime
              (os_printing [0x61; 13; 10; 0x62; 10] 3) [LString [0x78]])
    as [Hrun _].
  destruct (Hrun [0x78] [] (mk_process [0x61; 13; 10; 0x62; 10] (Some 3)) 3)
    as (tbl & Heq & Hkeys);
    [reflexivity|reflexivity|reflexivity|repeat constructor; discriminate
    |reflexivity|].
  exists tbl. split; [exact Heq|].
  rewrite !Hkeys. repeat split.
Defined.

(** C10 (as stated) fails.  For the output [a LF LF b] the lines are [a],
    an empty line and [b], and the table holds [a] under 1, [b] under 2
    and nothing under 3.  And a number as first argument is taken as the
    command: two values come back. *)
Lemma lua_execute_claim_fails :
  lua_execute plain_runtime (os_printing [0x61; 10; 10; 0x62] 0)
              [LString [0x78]]
  = Some [LTable (number_from 0 [[0x61]; [0x62]] ∅); LNumber 0]
  /\ text_lines [0x61; 10; 10; 0x62] = [[0x61]; []; [0x62]]
  /\ lua_execute plain_runtime (os_printing [0x61] 0) [LNumber 42]
     = Some [LTable (number_from 0 [[0x61]] ∅); LNumber 0].
Proof. repeat split. Qed.

End LuaExecFacts.

(** ** From one key record to [read_console] and [select] *)

(** When the buffer size seen last is the current one, a key record at the
    head of the input queue on which [read_console_key] pushes is consumed
    by the first round of [read_console], which returns with those
    pushes. *)
Lemma read_console_key_record (fuel : nat) (g : globals) (h : host_console)
    (t t' : win_terminal_in) (key : KEY_EVENT_RECORD)
    (queue : list INPUT_RECORD) :
  g_last_buffer_size g <> 0 ->
  g_last_buffer_size g = buffer_size_word h ->
  input_queue h = mk_record KEY_EVENT key :: queue ->
  read_console_key (g_altgr g) key t = Some t' ->
  read_console (S fuel) g h t = Some (g, set_input_queue queue h, t').
Proof.
  intros Hseen Hsame Hqueue Hkey. cbn [read_console].
  rewrite (truthy_true _ Hseen), <- Hsame, Z.eqb_refl, Hqueue.
  cbn [negb orb EventType KeyEvent]. change (KEY_EVENT =? KEY_EVENT) with true.
  change (KEY_EVENT =? WINDOW_BUFFER_SIZE_EVENT) with false.
  cbn [negb]. now rewrite Hkey.
Qed.

(** On the first call, when no buffer size has been seen yet, one more
    round is spent on recording it. *)
Example select_ctrl_a :
  let h := set_input_queue
             [mk_record KEY_EVENT
                (mk_key true (chr "A") 0x1e 0 LEFT_CTRL_PRESSED)]
             (console 7) in
  (fun r => pending (snd r)) <$> select 2 default_settings h buffer8
  = Some [0x00].
Proof. reflexivity. Qed.

(** ** Further facts about the output side *)

(** The only parameters [write_sgr] passes over are those from 108 on. *)
Lemma sgr_param_passes_over (default_attr attr param : Z) :
  108 <= param -> sgr_param default_attr attr param = attr.
Proof.
  intros Hp. unfold sgr_param.
  repeat match goal with
         | |- context [?a =? ?b] =>
             replace (a =? b) with false by (symmetry; apply Z.eqb_neq; lia)
         | |- context [?a <? ?b] =>
             replace (a <? b) with false by (symmetry; apply Z.ltb_ge; lia)
         end.
  reflexivity.
Qed.

(** With interpretation disabled a CSI sequence and text reach the host
    byte for byte, while the BEL control code is still taken out by
    [write_c0]. *)
Example write_disabled_passes_csi_drops_bel :
  written (fst (write [0x41; 0x1b; 0x5b; 0x33; 0x31; 0x6d; 0x07; 0x42]
                      (console 7) (session 7 false)))
  = [0x41; 0x1b; 0x5b; 0x33; 0x31; 0x6d; 0x42].
Proof. reflexivity. Qed.

(** * Further properties *)

(** ** The ring buffer as a bounded queue *)

Lemma pending_length (t : win_terminal_in) :
  buffer_ok t -> length (pending t) = Z.to_nat (m_buffer_count t).
Proof.
  intros Hok. rewrite (pending_slots t Hok), length_map, length_seq.
  reflexivity.
Qed.

Lemma pop_pending (t : win_terminal_in) :
  buffer_ok t -> 0 < m_buffer_count t ->
  pending t = fst (pop t) :: pending (snd (pop t)).
Proof.
  intros Hok Hcount.
  destruct (pop_step t Hok Hcount) as (Hv & Hok' & Hc & Hslot).
  rewrite (pending_slots t Hok), (pending_slots _ Hok'), Hc, Hv.
  replace (Z.to_nat (m_buffer_count t))
    with (S (Z.to_nat (m_buffer_count t - 1))) by lia.
  cbn [seq map]. f_equal.
  rewrite <- seq_shift, map_map. apply map_ext. intros i. now rewrite Hslot.
Qed.

Lemma pop_size (t : win_terminal_in) :
  sizeof_m_buffer (snd (pop t)) = sizeof_m_buffer t.
Proof. unfold pop. now destruct (m_buffer_count t =? 0). Qed.

Lemma run_op_queue (op : buffer_op) (out : list Z) (t : win_terminal_in) :
  buffer_ok t -> m_buffer_count t <= sizeof_m_buffer t -> narrow_op op ->
  let s := run_op (out, t) op in
  fst s = fst (queue_op (length (m_buffer t)) (out, pending t) op)
  /\ pending (snd s) = snd (queue_op (length (m_buffer t)) (out, pending t) op)
  /\ buffer_ok (snd s)
  /\ m_buffer_count (snd s) <= sizeof_m_buffer (snd s)
  /\ length (m_buffer (snd s)) = length (m_buffer t).
Proof.
  intros Hok Hcount Hop. pose proof Hok as (_ & _ & Hc0).
  destruct op as [value|]; cbn [run_op queue_op narrow_op fst snd] in *.
  - rewrite (pending_length t Hok).
    destruct (Z_lt_le_dec (m_buffer_count t) (sizeof_m_buffer t)) as [Hlt|Hge].
    + rewrite push_narrow by lia.
      replace (Z.to_nat (m_buffer_count t) <? length (m_buffer t))%nat
        with true
        by (symmetry; apply Nat.ltb_lt; unfold sizeof_m_buffer in *; lia).
      rewrite pending_push_raw by assumption.
      assert (Hu : to_uchar value = value) by (apply Z.mod_small; lia).
      rewrite Hu. pose proof (push_raw_size t value) as Hs.
      split; [reflexivity|]. split; [reflexivity|].
      split; [now apply push_raw_ok|].
      split; [rewrite Hs; cbn; lia|].
      unfold push_raw. cbn. now rewrite length_insert.
    + replace (Z.to_nat (m_buffer_count t) <? length (m_buffer t))%nat
        with false
        by (symmetry; apply Nat.ltb_ge; unfold sizeof_m_buffer in *; lia).
      unfold push.
      destruct (sizeof_m_buffer t <=? m_buffer_count t) eqn:E;
        [|apply Z.leb_gt in E; lia].
      split; [reflexivity|]. split; [reflexivity|].
      split; [exact Hok|]. split; [exact Hcount|reflexivity].
  - destruct (Z.eq_dec (m_buffer_count t) 0) as [Hz|Hnz].
    + assert (Hp : pending t = []).
      { apply length_zero_iff_nil. rewrite pending_length, Hz by assumption.
        reflexivity. }
      rewrite Hp. unfold pop. rewrite Hz. cbn [Z.eqb fst snd].
      rewrite Hp. split; [reflexivity|]. split; [reflexivity|].
      split; [exact Hok|]. split; [exact Hcount|reflexivity].
    + destruct (pop_step t Hok ltac:(lia)) as (Hv & Hok' & Hc & _).
      pose proof (pop_pending t Hok ltac:(lia)) as Hp.
      pose proof (pop_size t) as Hs.
      assert (Hlen : length (m_buffer (snd (pop t))) = length (m_buffer t))
        by (unfold sizeof_m_buffer in Hs; lia).
      destruct (pop t) as [c t']. cbn [fst snd] in *. rewrite Hp.
      split; [reflexivity|]. split; [reflexivity|].
      split; [exact Hok'|]. split; [lia|exact Hlen].
Qed.

(** X1: any series of pops and of pushes of values below 0x80 acts on the
    ring buffer as on a queue of bytes bounded by the capacity: the pops
    return the same bytes (0xff when the queue is empty), the bytes left
    pending are the same, a push into a full buffer is dropped, and the
    count stays within the capacity. *)
Theorem ring_buffer_bounded_queue (ops : list buffer_op)
    (t : win_terminal_in) :
  buffer_ok t ->
  m_buffer_count t <= sizeof_m_buffer t ->
  Forall narrow_op ops ->
  let s := fold_left run_op ops ([], t) in
  let q := fold_left (queue_op (length (m_buffer t))) ops ([], pending t) in
  fst s = fst q
  /\ pending (snd s) = snd q
  /\ buffer_ok (snd s)
  /\ m_buffer_count (snd s) <= sizeof_m_buffer (snd s).
Proof.
  intros Hok Hcount Hops.
  cut (forall out,
          let s := fold_left run_op ops (out, t) in
          let q := fold_left (queue_op (length (m_buffer t))) ops
                             (out, pending t) in
          fst s = fst q /\ pending (snd s) = snd q /\ buffer_ok (snd s)
          /\ m_buffer_count (snd s) <= sizeof_m_buffer (snd s)).
  { intros H. apply H. }
  revert t Hok Hcount.
  induction Hops as [|op ops Hop _ IH]; intros t Hok Hcount out;
    cbn [fold_left].
  - cbn [fst snd]. split; [reflexivity|]. split; [reflexivity|].
    split; assumption.
  - destruct (run_op_queue op out t Hok Hcount Hop)
      as (Hout & Hpend & Hok' & Hcount' & Hlen).
    destruct (run_op (out, t) op) as [out1 t1]. cbn [fst snd] in *.
    destruct (queue_op (length (m_buffer t)) (out, pending t) op)
      as [out2 q2]. cbn [fst snd] in *. subst out2 q2.
    rewrite <- Hlen. apply IH; assumption.
Qed.

Lemma ring_buffer_bounded_queue_witness :
  let ops := [op_push 0x61; op_push 0x62; op_pop; op_pop; op_pop] in
  fst (fold_left run_op ops ([], buffer8)) = [0x61; 0x62; 0xff].
Proof.
  intros ops.
  destruct (ring_buffer_bounded_queue ops buffer8) as (Hout & _).
  - exact buffer8_ok.
  - unfold sizeof_m_buffer. cbn. lia.
  - repeat constructor; cbn; lia.
  - rewrite Hout. reflexivity.
Defined.

(** X2: [read] never hands the sentinel 0xff of [pop] to its caller; on
    an empty buffer it returns 0x04 and leaves the buffer as it is. *)
Theorem read_hides_sentinel (t : win_terminal_in) :
  fst (read t) <> 0xff
  /\ (m_buffer_count t = 0 -> read t = (0x04, t)).
Proof.
  unfold read, pop. split.
  - destruct (m_buffer_count t =? 0); cbn [fst snd].
    + cbn. discriminate.
    + destruct (_ =? 0xff) eqn:E; cbn [negb fst].
      * discriminate.
      * now apply Z.eqb_neq in E.
  - intros ->. reflexivity.
Qed.

Lemma read_hides_sentinel_witness :
  fst (read buffer8) <> 0xff /\ read buffer8 = (0x04, buffer8).
Proof.
  destruct (read_hides_sentinel buffer8) as [Hne Hempty].
  split; [exact Hne|]. apply Hempty. reflexivity.
Defined.

(** ** [select] and [read_console] *)

Lemma push_count_mono (value : Z) (t : win_terminal_in) :
  m_buffer_count t <= m_buffer_count (push value t).
Proof.
  unfold push. destruct (_ <=? _); [lia|].
  destruct (value <? 0x80); cbn; lia.
Qed.

Lemma push_count_grows (value : Z) (t : win_terminal_in) :
  0 <= value <= 0xFFFF ->
  m_buffer_count t < sizeof_m_buffer t ->
  m_buffer_count t < m_buffer_count (push value t).
Proof.
  intros Hv Hroom. unfold push.
  destruct (sizeof_m_buffer t <=? m_buffer_count t) eqn:E;
    [apply Z.leb_le in E; lia|].
  destruct (value <? 0x80) eqn:E2; [cbn; lia|]. apply Z.ltb_ge in E2.
  assert (Hw : to_wchar value = value) by (apply Z.mod_small; lia).
  cbv zeta. rewrite Hw, to_utf8_unit by lia.
  pose proof (utf8_encode_wide_length value E2). cbn. lia.
Qed.

Lemma push_buffer_ok (value : Z) (t : win_terminal_in) :
  buffer_ok t -> buffer_ok (push value t).
Proof.
  intros Hok. pose proof Hok as (Hpow & Hhead & Hc).
  pose proof (push_count_mono value t) as Hmono.
  assert (Hlen : sizeof_m_buffer (push value t) = sizeof_m_buffer t).
  { unfold push, sizeof_m_buffer. destruct (_ <=? _); [reflexivity|].
    destruct (value <? 0x80); cbn; [now rewrite length_insert|].
    destruct (_ <=? _); [|reflexivity].
    generalize (m_buffer_head t + m_buffer_count t).
    generalize (m_buffer t).
    induction (Utf.to_utf8 8 [to_wchar value; 0]) as [|b bs IH];
      intros buf index; cbn [store_bytes]; [reflexivity|].
    now rewrite IH, length_insert. }
  assert (Hh : m_buffer_head (push value t) = m_buffer_head t).
  { unfold push. destruct (_ <=? _); [reflexivity|].
    now destruct (value <? 0x80). }
  unfold buffer_ok. rewrite Hlen, Hh. split; [exact Hpow|]. split; lia.
Qed.

Lemma read_console_key_fills (altgr_setting : bool) (key : KEY_EVENT_RECORD)
    (t t' : win_terminal_in) :
  buffer_ok t -> m_buffer_count t = 0 ->
  0 <= UnicodeChar key <= 0xFFFF ->
  read_console_key altgr_setting key t = Some t' ->
  buffer_ok t' /\ 0 < m_buffer_count t'.
Proof.
  intros Hok Hcount Hchar. pose proof (buffer_ok_size t Hok) as Hsize.
  assert (Hgrow : forall v, 0 <= v <= 0xFFFF ->
                    0 < m_buffer_count (push v t)).
  { intros v Hv. rewrite <- Hcount at 1.
    apply push_count_grows; [exact Hv|lia]. }
  unfold read_console_key.
  destruct (bKeyDown key); cbn [negb].
  2:{ destruct (_ && _); [|discriminate]. intros [= <-].
      split; [now apply push_buffer_ok|now apply Hgrow]. }
  set (altgr_sub := _ && _ && truthy (UnicodeChar key)).
  clearbody altgr_sub.
  assert (Hkc : 0 <= snd (if altgr_sub && negb altgr_setting
                          then (false, 0)
                          else (altgr_sub, UnicodeChar key)) <= 0xFFFF)
    by (destruct (altgr_sub && negb altgr_setting); cbn; lia).
  destruct (if altgr_sub && negb altgr_setting then (false, 0)
            else (altgr_sub, UnicodeChar key)) as [sub key_char].
  cbn [snd] in Hkc. cbv beta iota zeta.
  destruct (key_char =? 0).
  - match goal with
    | |- context [truthy (Z.land ?f ENHANCED_KEY)] =>
        destruct (truthy (Z.land f ENHANCED_KEY))
    end.
    + destruct (mod_map_row mod_map (wVirtualScanCode key))
        as [[[sc nrml] shft]|]; [|discriminate].
      intros [= <-]. split; [now repeat apply push_buffer_ok|].
      eapply Z.lt_le_trans; [|apply push_count_mono].
      eapply Z.lt_le_trans; [|apply push_count_mono].
      apply Hgrow. lia.
    + destruct (negb _); [discriminate|].
      destruct (ctrl_key_vk _); [|discriminate]. intros [= <-].
      split; [now apply push_buffer_ok|apply Hgrow; lia].
  - destruct (_ && _ && _).
    + intros [= <-]. split; [now repeat apply push_buffer_ok|].
      eapply Z.lt_le_trans; [|apply push_count_mono].
      eapply Z.lt_le_trans; [|apply push_count_mono].
      apply Hgrow. lia.
    + intros [= <-]. destruct (if negb sub then _ else false).
      * split; [now repeat apply push_buffer_ok|].
        eapply Z.lt_le_trans; [|apply push_count_mono]. apply Hgrow. lia.
      * split; [now apply push_buffer_ok|now apply Hgrow].
Qed.

Lemma read_console_fills (fuel : nat) :
  forall (g g' : globals) (h h' : host_console) (t t' : win_terminal_in),
    buffer_ok t -> m_buffer_count t = 0 ->
    Forall (fun r => 0 <= UnicodeChar (KeyEvent r) <= 0xFFFF)
           (input_queue h) ->
    read_console fuel g h t = Some (g', h', t') ->
    buffer_ok t' /\ 0 < m_buffer_count t'.
Proof.
  induction fuel as [|fuel IH]; intros g g' h h' t t' Hok Hcount Hq;
    cbn [read_console]; [discriminate|].
  destruct (_ || _); [now apply IH|].
  destruct (input_queue h) as [|record queue] eqn:Eq; [discriminate|].
  inversion Hq as [|? ? Hrec Hqueue]; subst.
  destruct (negb _); [apply IH; assumption|].
  destruct (_ =? WINDOW_BUFFER_SIZE_EVENT); [apply IH; assumption|].
  destruct (read_console_key _ _ t) as [t1|] eqn:Ekey;
    [|apply IH; assumption].
  intros [= <- <- <-]. eapply read_console_key_fills; eassumption.
Qed.

(** X3: when [select] returns, the buffer holds at least one byte, and
    the [pop] that follows returns the first of the pending bytes.  The key
    records in the queue carry 16-bit characters. *)
Theorem select_leaves_input (fuel : nat) (g g' : globals)
    (h h' : host_console) (t t' : win_terminal_in) :
  buffer_ok t ->
  Forall (fun r => 0 <= UnicodeChar (KeyEvent r) <= 0xFFFF) (input_queue h) ->
  select fuel g h t = Some (g', h', t') ->
  0 < m_buffer_count t'
  /\ exists c rest, pending t' = c :: rest /\ fst (pop t') = c.
Proof.
  intros Hok Hq. unfold select.
  assert (Hpost : forall t1, buffer_ok t1 -> 0 < m_buffer_count t1 ->
            0 < m_buffer_count t1
            /\ exists c rest, pending t1 = c :: rest /\ fst (pop t1) = c).
  { intros t1 Hok1 Hc1. split; [exact Hc1|].
    exists (fst (pop t1)), (pending (snd (pop t1))).
    split; [now apply pop_pending|reflexivity]. }
  destruct (truthy (m_buffer_count t)) eqn:E; cbn [negb].
  - intros [= <- <- <-]. apply Hpost; [exact Hok|].
    destruct Hok as (_ & _ & Hc). unfold truthy in E.
    destruct (m_buffer_count t =? 0) eqn:E0; [discriminate|].
    apply Z.eqb_neq in E0. lia.
  - intros Hrun. unfold truthy in E.
    destruct (m_buffer_count t =? 0) eqn:E0; [|discriminate].
    apply Z.eqb_eq in E0.
    destruct (read_console_fills fuel g g' h h' t t' Hok E0 Hq Hrun).
    now apply Hpost.
Qed.

Lemma select_leaves_input_witness :
  let h := set_input_queue
             [mk_record WINDOW_BUFFER_SIZE_EVENT (mk_key false 0 0 0 0);
              mk_record KEY_EVENT (mk_key true 0x41 0x1e 0x61 0)]
             (console 7) in
  exists g' h' t',
    select 3 default_settings h buffer8 = Some (g', h', t')
    /\ 0 < m_buffer_count t'.
Proof.
  intros h.
  destruct (select 3 default_settings h buffer8) as [[[g' h'] t']|] eqn:E;
    [|discriminate E].
  exists g', h', t'. split; [reflexivity|].
  apply (select_leaves_input 3 default_settings g' h h' buffer8 t').
  - exact buffer8_ok.
  - repeat constructor; cbn; lia.
  - exact E.
Defined.

(** X4: when the console reports a buffer size word of 0 (no columns and
    no window rows), [read_console] never gets to the input: every round
    takes the branch that records the size and calls [read_console]
    again, whatever the fuel. *)
Theorem read_console_zero_size_never_returns (fuel : nat) (g : globals)
    (h : host_console) (t : win_terminal_in) :
  buffer_size_word h = 0 ->
  read_console fuel g h t = None.
Proof.
  intros Hword. revert g.
  induction fuel as [|fuel IH]; intros g; cbn [read_console];
    [reflexivity|].
  rewrite Hword. unfold truthy.
  destruct (g_last_buffer_size g =? 0) eqn:E; cbn [negb orb]; apply IH.
Qed.

Lemma read_console_zero_size_never_returns_witness :
  let h := mk_host 0 0 7 0 0 0 (-1)
             [mk_record KEY_EVENT (mk_key true 0x41 0x1e 0x61 0)] []
             (fun _ => false) in
  read_console 1000 default_settings h buffer8 = None.
Proof.
  intros h. apply read_console_zero_size_never_returns. reflexivity.
Defined.




(** ** The size word *)

Lemma lor_shifted (x r : Z) :
  0 <= x -> 0 <= r < 65536 -> Z.lor (Z.shiftl x 16) r = x * 65536 + r.
Proof.
  intros Hx Hr. rewrite Z.shiftl_mul_pow2 by lia. change (2 ^ 16) with 65536.
  rewrite <- Z.lxor_lor, <- Z.add_nocarry_lxor; try reflexivity.
  - apply Z.bits_inj'. intros n Hn. rewrite Z.land_spec, Z.bits_0.
    destruct (Z_lt_le_dec n 16) as [Hlt|Hge].
    + change 65536 with (2 ^ 16). rewrite Z.mul_pow2_bits_low by lia.
      reflexivity.
    + rewrite (Z.bits_above_log2 r n), andb_false_r; [reflexivity|lia|].
      destruct (Z.eq_dec r 0) as [->|Hr0]; [cbn; lia|].
      apply Z.lt_le_trans with 16; [|exact Hge].
      apply Z.log2_lt_pow2; lia.
  - apply Z.bits_inj'. intros n Hn. rewrite Z.land_spec, Z.bits_0.
    destruct (Z_lt_le_dec n 16) as [Hlt|Hge].
    + change 65536 with (2 ^ 16). rewrite Z.mul_pow2_bits_low by lia.
      reflexivity.
    + rewrite (Z.bits_above_log2 r n), andb_false_r; [reflexivity|lia|].
      destruct (Z.eq_dec r 0) as [->|Hr0]; [cbn; lia|].
      apply Z.lt_le_trans with 16; [|exact Hge].
      apply Z.log2_lt_pow2; lia.
Qed.

(** X6: for a console of up to 65535 columns whose window has up to 65535
    rows, the word [read_console] keeps holds [get_columns] in its upper
    and [get_rows] in its lower sixteen bits, so that a change of either
    changes the word. *)
Theorem buffer_size_word_packs (h : host_console) :
  0 <= get_columns h < 65536 ->
  0 <= get_rows h < 65536 ->
  buffer_size_word h / 65536 = get_columns h
  /\ buffer_size_word h mod 65536 = get_rows h.
Proof.
  unfold get_columns, get_rows, buffer_size_word, to_unsigned.
  intros Hc Hr.
  rewrite (Z.mod_small (srWindow_Bottom h - srWindow_Top h + 1)) by lia.
  rewrite (Z.mod_small (Z.shiftl (dwSize_X h) 16))
    by (rewrite Z.shiftl_mul_pow2 by lia; change (2 ^ 16) with 65536; lia).
  rewrite lor_shifted, Z.mod_small by lia.
  split.
  - rewrite Z.div_add_l by lia. rewrite Z.div_small by lia. lia.
  - rewrite Z.add_comm, Z.mod_add by lia. apply Z.mod_small. lia.
Qed.

Lemma buffer_size_word_packs_witness :
  buffer_size_word (console 7) / 65536 = 80
  /\ buffer_size_word (console 7) mod 65536 = 25.
Proof.
  apply (buffer_size_word_packs (console 7)); split; discriminate || reflexivity.
Defined.

(** ** More of the input encoder *)

(** X7: every navigation key of [mod_map].  A key-down record without a
    character whose scan code is in the table, and which is enhanced by its
    flag or by its virtual key, appends ESC, then [O] with Ctrl held and
    the opening bracket without, then the shifted or the normal character
    of its row. *)
Theorem enhanced_key_sequences (altgr_setting : bool)
    (key : KEY_EVENT_RECORD) (t : win_terminal_in) (sc nrml shft : Z) :
  In (sc, nrml, shft) mod_map ->
  bKeyDown key = true ->
  UnicodeChar key = 0 ->
  wVirtualScanCode key = sc ->
  Z.land (dwControlKeyState key) ENHANCED_KEY <> 0
  \/ existsb (Z.eqb (wVirtualKeyCode key)) enhanced_vks = true ->
  buffer_ok t ->
  m_buffer_count t + 3 <= sizeof_m_buffer t ->
  exists t',
    read_console_key altgr_setting key t = Some t'
    /\ pending t'
       = pending t
         ++ [0x1b;
             if truthy (Z.land (dwControlKeyState key) CTRL_PRESSED)
             then chr "O" else chr "[";
             if truthy (Z.land (dwControlKeyState key) SHIFT_PRESSED)
             then shft else nrml].
Proof.
  intros Hrow Hdown Huc Hsc Henh Hok Hroom.
  unfold read_console_key. rewrite Hdown, Huc, Hsc. cbn [negb].
  replace (truthy 0) with false by reflexivity.
  rewrite andb_false_r. cbn [andb negb]. cbv beta iota zeta.
  change (0 =? 0) with true. cbv iota.
  set (key_flags := if existsb _ enhanced_vks then _ else _).
  assert (Hflags : truthy (Z.land key_flags ENHANCED_KEY) = true
                   /\ Z.land key_flags SHIFT_PRESSED
                      = Z.land (dwControlKeyState key) SHIFT_PRESSED
                   /\ Z.land key_flags CTRL_PRESSED
                      = Z.land (dwControlKeyState key) CTRL_PRESSED).
  { unfold key_flags.
    destruct (existsb _ enhanced_vks).
    - rewrite (land_lor_other _ ENHANCED_KEY SHIFT_PRESSED),
        (land_lor_other _ ENHANCED_KEY CTRL_PRESSED) by reflexivity.
      split; [|tauto].
      apply truthy_true. rewrite Z.land_lor_distr_l, Z.lor_eq_0_iff.
      intros [_ H]. discriminate H.
    - destruct Henh as [Hflag|Hvk]; [|discriminate].
      split; [now apply truthy_true|tauto]. }
  destruct Hflags as (-> & -> & ->). clearbody key_flags.
  assert (Hfound : mod_map_row mod_map sc = Some (sc, nrml, shft)
                   /\ 0 <= nrml < 0x80 /\ 0 <= shft < 0x80).
  { unfold mod_map in Hrow. cbn [In] in Hrow.
    repeat (destruct Hrow as [[= <- <- <-]|Hrow];
            [split; [reflexivity|split; split; discriminate || reflexivity]
            |]).
    contradiction. }
  destruct Hfound as (-> & Hn & Hs). cbv iota beta.
  set (b2 := if truthy (Z.land (dwControlKeyState key) CTRL_PRESSED)
             then chr "O" else chr "[").
  assert (Hb2 : 0 <= b2 < 0x80)
    by (unfold b2; destruct (truthy _); split; discriminate || reflexivity).
  clearbody b2.
  set (b3 := if truthy (Z.land (dwControlKeyState key) SHIFT_PRESSED)
             then shft else nrml).
  assert (Hb3 : 0 <= b3 < 0x80)
    by (unfold b3;
        destruct (truthy (Z.land (dwControlKeyState key) SHIFT_PRESSED));
        lia).
  assert (Hj : (if 1 + of_bool (truthy (Z.land (dwControlKeyState key)
                                               SHIFT_PRESSED)) =? 1
                then nrml else shft) = b3)
    by (unfold b3;
        destruct (truthy (Z.land (dwControlKeyState key) SHIFT_PRESSED));
        reflexivity).
  rewrite Hj. clearbody b3.
  eexists. split; [reflexivity|].
  rewrite push_narrow3 by (reflexivity || lia).
  destruct (fold_push_raw [0x1b; b2; b3] t Hok) as [Hp _];
    [cbn [length]; lia|].
  rewrite Hp. cbn [map]. unfold to_uchar.
  rewrite !Z.mod_small by lia. reflexivity.
Qed.

Lemma enhanced_key_sequences_witness :
  (pending <$> read_console_key true
     (mk_key true VK_DELETE 0x53 0 (Z.lor SHIFT_PRESSED ENHANCED_KEY)) buffer8)
  = Some [0x1b; chr "["; chr "e"].
Proof.
  destruct (enhanced_key_sequences true
              (mk_key true VK_DELETE 0x53 0 (Z.lor SHIFT_PRESSED ENHANCED_KEY))
              buffer8 (chr "S") (chr "3") (chr "e"))
    as (t' & Hrun & Hpending);
    [do 5 right; left; reflexivity|reflexivity|reflexivity|reflexivity
    |left; discriminate|exact buffer8_ok|unfold sizeof_m_buffer; cbn; lia|].
  rewrite Hrun. cbn [fmap option_fmap option_map]. f_equal. exact Hpending.
Defined.

Lemma character_key (altgr_setting : bool) (key : KEY_EVENT_RECORD)
    (t : win_terminal_in) :
  bKeyDown key = true ->
  UnicodeChar key <> 0 ->
  Z.land (dwControlKeyState key) CTRL_PRESSED = 0 ->
  read_console_key altgr_setting key t
  = if (UnicodeChar key =? chr "009") && (m_buffer_count t =? 0)
       && truthy (Z.land (dwControlKeyState key) SHIFT_PRESSED)
    then Some (push (chr "Z") (push (chr "[") (push 0x1b t)))
    else Some (push (UnicodeChar key)
                 (if truthy (Z.land (dwControlKeyState key)
                                    (Z.lor LEFT_ALT_PRESSED RIGHT_ALT_PRESSED))
                  then push 0x1b t else t)).
Proof.
  intros Hdown Huc Hctrl. unfold read_console_key. rewrite Hdown.
  cbn [negb]. rewrite (truthy_false _ Hctrl), andb_false_r.
  cbn [andb negb]. cbv beta iota zeta.
  destruct (UnicodeChar key =? 0) eqn:E; [apply Z.eqb_eq in E; contradiction|].
  reflexivity.
Qed.

(** X8: Shift+Tab.  A key-down record with the character TAB, Shift held
    and no Ctrl key held, met with an empty buffer, appends ESC [ Z and
    nothing else, with or without Alt. *)
Theorem shift_tab_sequence (altgr_setting : bool) (key : KEY_EVENT_RECORD)
    (t : win_terminal_in) :
  bKeyDown key = true ->
  UnicodeChar key = 0x09 ->
  Z.land (dwControlKeyState key) SHIFT_PRESSED <> 0 ->
  Z.land (dwControlKeyState key) CTRL_PRESSED = 0 ->
  buffer_ok t ->
  m_buffer_count t = 0 ->
  3 <= sizeof_m_buffer t ->
  exists t',
    read_console_key altgr_setting key t = Some t'
    /\ pending t' = [0x1b; chr "["; chr "Z"].
Proof.
  intros Hdown Huc Hshift Hctrl Hok Hcount Hsize.
  rewrite character_key by (assumption || (rewrite Huc; discriminate)).
  rewrite Huc, Hcount, (truthy_true _ Hshift). cbn [Z.eqb andb].
  change (9 =? chr "009") with true. cbv iota.
  eexists. split; [reflexivity|].
  rewrite push_narrow3 by (reflexivity || lia).
  destruct (fold_push_raw [0x1b; chr "["; chr "Z"] t Hok) as [Hp _];
    [cbn [length]; lia|].
  rewrite Hp, (pending_slots t Hok), Hcount. reflexivity.
Qed.

Lemma shift_tab_sequence_witness :
  (pending <$> read_console_key true
     (mk_key true 0x09 0x0f 0x09 (Z.lor SHIFT_PRESSED LEFT_ALT_PRESSED))
     buffer8)
  = Some [0x1b; chr "["; chr "Z"].
Proof.
  destruct (shift_tab_sequence true
              (mk_key true 0x09 0x0f 0x09
                      (Z.lor SHIFT_PRESSED LEFT_ALT_PRESSED)) buffer8)
    as (t' & Hrun & Hpending);
    [reflexivity|reflexivity|discriminate|reflexivity|exact buffer8_ok
    |reflexivity|unfold sizeof_m_buffer; cbn; lia|].
  rewrite Hrun. cbn [fmap option_fmap option_map]. f_equal. exact Hpending.
Defined.

(** X9: the Alt prefix.  A key-down record with a character below 0x80
    and no Ctrl key held, other than Shift+Tab on an empty buffer, appends
    the character, preceded by ESC exactly when an Alt key is held. *)
Theorem alt_prefixes_escape (altgr_setting : bool) (key : KEY_EVENT_RECORD)
    (t : win_terminal_in) :
  bKeyDown key = true ->
  0 < UnicodeChar key < 0x80 ->
  Z.land (dwControlKeyState key) CTRL_PRESSED = 0 ->
  UnicodeChar key <> 0x09
  \/ m_buffer_count t <> 0
  \/ Z.land (dwControlKeyState key) SHIFT_PRESSED = 0 ->
  buffer_ok t ->
  m_buffer_count t + 2 <= sizeof_m_buffer t ->
  exists t',
    read_console_key altgr_setting key t = Some t'
    /\ pending t'
       = pending t
         ++ (if truthy (Z.land (dwControlKeyState key)
                               (Z.lor LEFT_ALT_PRESSED RIGHT_ALT_PRESSED))
             then [0x1b] else [])
         ++ [UnicodeChar key].
Proof.
  intros Hdown Huc Hctrl Hplain Hok Hroom.
  rewrite character_key by (assumption || lia).
  assert (Hspecial : (UnicodeChar key =? chr "009") && (m_buffer_count t =? 0)
                     && truthy (Z.land (dwControlKeyState key) SHIFT_PRESSED)
                     = false).
  { destruct Hplain as [H|[H|H]].
    - change (chr "009") with 9. now apply Z.eqb_neq in H as ->.
    - apply Z.eqb_neq in H as ->. now rewrite andb_false_r.
    - rewrite (truthy_false _ H). now rewrite andb_false_r. }
  rewrite Hspecial. eexists. split; [reflexivity|].
  assert (Hu : to_uchar (UnicodeChar key) = UnicodeChar key)
    by (apply Z.mod_small; lia).
  clear Hspecial.
  destruct (truthy (Z.land (dwControlKeyState key)
                           (Z.lor LEFT_ALT_PRESSED RIGHT_ALT_PRESSED))).
  - rewrite (push_narrow 0x1b t) by (reflexivity || lia).
    assert (Hroom' : m_buffer_count (push_raw t 0x1b)
                     < sizeof_m_buffer (push_raw t 0x1b))
      by (rewrite push_raw_size;
          cbn [m_buffer_count push_raw set_buffer]; lia).
    rewrite push_narrow by (exact Hroom' || lia).
    rewrite (pending_push_raw (push_raw t 0x1b))
      by (exact Hroom' || now apply push_raw_ok).
    rewrite pending_push_raw, Hu, <- app_assoc by (exact Hok || lia).
    reflexivity.
  - rewrite push_narrow, pending_push_raw, Hu by (exact Hok || lia).
    reflexivity.
Qed.

Lemma alt_prefixes_escape_witness :
  (pending <$> read_console_key true
     (mk_key true 0x46 0x21 0x66 LEFT_ALT_PRESSED) buffer8)
  = Some [0x1b; 0x66].
Proof.
  destruct (alt_prefixes_escape true
              (mk_key true 0x46 0x21 0x66 LEFT_ALT_PRESSED) buffer8)
    as (t' & Hrun & Hpending);
    [reflexivity|split; reflexivity|reflexivity|left; discriminate
    |exact buffer8_ok|unfold sizeof_m_buffer; cbn; lia|].
  rewrite Hrun. cbn [fmap option_fmap option_map]. f_equal. exact Hpending.
Defined.

(** X10: the AltGr substitute.  With the setting on, a key-down record
    with left Alt and a Ctrl key held and a character below 0x80 (TAB
    apart) appends the character alone: no ESC prefix for Alt, no control
    code for Ctrl. *)
Theorem altgr_substitute_honoured (key : KEY_EVENT_RECORD)
    (t : win_terminal_in) :
  bKeyDown key = true ->
  0 < UnicodeChar key < 0x80 ->
  UnicodeChar key <> 0x09 ->
  Z.land (dwControlKeyState key) LEFT_ALT_PRESSED <> 0 ->
  Z.land (dwControlKeyState key) CTRL_PRESSED <> 0 ->
  buffer_ok t ->
  m_buffer_count t < sizeof_m_buffer t ->
  exists t',
    read_console_key true key t = Some t'
    /\ pending t' = pending t ++ [UnicodeChar key].
Proof.
  intros Hdown Huc Htab Halt Hctrl Hok Hroom.
  unfold read_console_key. rewrite Hdown. cbn [negb].
  rewrite (truthy_true _ Halt), (truthy_true _ Hctrl),
    (truthy_true (UnicodeChar key)) by lia.
  cbn [andb negb]. cbv beta iota zeta.
  destruct (UnicodeChar key =? 0) eqn:E0; [apply Z.eqb_eq in E0; lia|].
  change (chr "009") with 9.
  apply Z.eqb_neq in Htab. rewrite Htab. cbn [andb].
  eexists. split; [reflexivity|].
  rewrite push_narrow, pending_push_raw by (exact Hok || lia).
  unfold to_uchar. rewrite Z.mod_small by lia. reflexivity.
Qed.

Lemma altgr_substitute_honoured_witness :
  (pending <$> read_console_key true
     (mk_key true 0x51 0x10 0x40 (Z.lor LEFT_ALT_PRESSED LEFT_CTRL_PRESSED))
     buffer8)
  = Some [0x40].
Proof.
  destruct (altgr_substitute_honoured
              (mk_key true 0x51 0x10 0x40
                      (Z.lor LEFT_ALT_PRESSED LEFT_CTRL_PRESSED)) buffer8)
    as (t' & Hrun & Hpending);
    [reflexivity|split; reflexivity|discriminate|discriminate|discriminate
    |exact buffer8_ok|unfold sizeof_m_buffer; cbn; lia|].
  rewrite Hrun. cbn [fmap option_fmap option_map]. f_equal. exact Hpending.
Defined.

(** X11: with the setting off, a key-down record with left Alt, a Ctrl
    key and a character is handled as the same record without its
    character. *)
Theorem altgr_substitute_refused (key : KEY_EVENT_RECORD)
    (t : win_terminal_in) :
  bKeyDown key = true ->
  UnicodeChar key <> 0 ->
  Z.land (dwControlKeyState key) LEFT_ALT_PRESSED <> 0 ->
  Z.land (dwControlKeyState key) CTRL_PRESSED <> 0 ->
  read_console_key false key t
  = read_console_key false
      (mk_key true (wVirtualKeyCode key) (wVirtualScanCode key) 0
              (dwControlKeyState key)) t.
Proof.
  intros Hdown Huc Halt Hctrl.
  unfold read_console_key.
  cbn [bKeyDown UnicodeChar wVirtualKeyCode wVirtualScanCode
       dwControlKeyState].
  rewrite Hdown. cbn [negb].
  rewrite (truthy_true _ Halt), (truthy_true _ Hctrl),
    (truthy_true _ Huc).
  reflexivity.
Qed.

Lemma altgr_substitute_refused_witness :
  (pending <$> read_console_key false
     (mk_key true 0x51 0x10 0x40 (Z.lor LEFT_ALT_PRESSED LEFT_CTRL_PRESSED))
     buffer8)
  = Some [0x00].
Proof.
  rewrite altgr_substitute_refused;
    [reflexivity|reflexivity|discriminate|discriminate|discriminate].
Defined.

Lemma pending_push_bmp (c : Z) (t : win_terminal_in) :
  buffer_ok t -> 1 <= c <= 0xFFFF ->
  m_buffer_count t + 3 < sizeof_m_buffer t ->
  pending (push c t) = pending t ++ Utf.utf8_encode c.
Proof.
  intros Hok Hc Hroom.
  destruct (utf8_encode_bmp c ltac:(lia)) as [Hlen Hbytes].
  destruct (Z_lt_le_dec c 0x80) as [Hlt|Hge].
  - rewrite push_narrow, pending_push_raw by (exact Hok || lia).
    unfold Utf.utf8_encode.
    destruct (c <? 0x80) eqn:E; [|apply Z.ltb_ge in E; lia].
    unfold to_uchar. rewrite Z.mod_small by lia. reflexivity.
  - assert (Hw : to_wchar c = c) by (apply Z.mod_small; lia).
    rewrite push_wide; rewrite ?Hw, ?to_utf8_unit; try (exact Hok || lia).
    destruct (fold_push_raw (Utf.utf8_encode c) t Hok) as [Hp _]; [lia|].
    rewrite Hp, Hbytes. reflexivity.
Qed.

(** X12: key-up records.  A key-up record pushes nothing unless it is the
    Alt key (VK_MENU) with a character; for that one the character is
    appended in UTF-8 whatever the modifiers are. *)
Theorem key_up_records (altgr_setting : bool) (key : KEY_EVENT_RECORD)
    (t : win_terminal_in) :
  bKeyDown key = false ->
  (wVirtualKeyCode key <> VK_MENU \/ UnicodeChar key = 0 ->
   read_console_key altgr_setting key t = None)
  /\ (wVirtualKeyCode key = VK_MENU ->
      1 <= UnicodeChar key <= 0xFFFF ->
      buffer_ok t ->
      m_buffer_count t + 3 < sizeof_m_buffer t ->
      exists t',
        read_console_key altgr_setting key t = Some t'
        /\ pending t' = pending t ++ Utf.utf8_encode (UnicodeChar key)).
Proof.
  intros Hup. unfold read_console_key. rewrite Hup. cbn [negb]. split.
  - intros [Hvk| ->].
    + apply Z.eqb_neq in Hvk. now rewrite Hvk.
    + now rewrite andb_false_r.
  - intros -> Huc Hok Hroom. rewrite Z.eqb_refl, truthy_true by lia.
    cbn [andb]. eexists. split; [reflexivity|].
    now apply pending_push_bmp.
Qed.

Lemma key_up_records_witness :
  read_console_key true (mk_key false 0x41 0x1e 0x61 0) buffer8 = None
  /\ (pending <$> read_console_key true
        (mk_key false VK_MENU 0x38 0xE9 0) buffer8)
     = Some [0xC3; 0xA9].
Proof.
  split.
  - apply (key_up_records true (mk_key false 0x41 0x1e 0x61 0) buffer8);
      [reflexivity|left; discriminate].
  - destruct (key_up_records true (mk_key false VK_MENU 0x38 0xE9 0) buffer8)
      as [_ Halt]; [reflexivity|].
    destruct Halt as (t' & Hrun & Hpending);
      [reflexivity|split; discriminate|exact buffer8_ok
      |unfold sizeof_m_buffer; cbn; lia|].
    rewrite Hrun. cbn [fmap option_fmap option_map]. f_equal. exact Hpending.
Defined.

(** X13: keys that are passed over.  A key-down record without a
    character that is not enhanced (neither by flag nor by virtual key)
    pushes nothing when no Ctrl key is held, and with Ctrl held when its
    virtual key is a function key F1 to F24. *)
Theorem plain_keys_passed_over (altgr_setting : bool)
    (key : KEY_EVENT_RECORD) (t : win_terminal_in) :
  bKeyDown key = true ->
  UnicodeChar key = 0 ->
  Z.land (dwControlKeyState key) ENHANCED_KEY = 0 ->
  existsb (Z.eqb (wVirtualKeyCode key)) enhanced_vks = false ->
  Z.land (dwControlKeyState key) CTRL_PRESSED = 0
  \/ 0x70 <= wVirtualKeyCode key <= 0x87 ->
  read_console_key altgr_setting key t = None.
Proof.
  intros Hdown Huc Henh Hvk Hcase.
  unfold read_console_key. rewrite Hdown, Huc. cbn [negb].
  replace (truthy 0) with false by reflexivity.
  rewrite andb_false_r. cbn [andb negb]. cbv beta iota zeta.
  change (0 =? 0) with true. cbv iota.
  rewrite Hvk, (truthy_false _ Henh).
  destruct (truthy (Z.land (dwControlKeyState key) CTRL_PRESSED)) eqn:Ectrl;
    cbn [negb]; [|reflexivity].
  destruct Hcase as [Hctrl|Hfn];
    [rewrite (truthy_false _ Hctrl) in Ectrl; discriminate|].
  unfold ctrl_key_vk, CONTAINS, to_unsigned.
  change (chr "A") with 65. change (chr "Z") with 90.
  rewrite (Z.mod_small (wVirtualKeyCode key - 65)) by lia.
  replace ((wVirtualKeyCode key - 219) mod 4294967296)
    with (wVirtualKeyCode key - 219 + 4294967296)
    by (apply Z.mod_unique with (-1); lia).
  repeat match goal with
         | |- context [?a <=? ?b] =>
             replace (a <=? b) with false by (symmetry; apply Z.leb_gt; lia)
         | |- context [wVirtualKeyCode key =? ?b] =>
             replace (wVirtualKeyCode key =? b) with false
               by (symmetry; apply Z.eqb_neq; lia)
         end.
  reflexivity.
Qed.

Lemma plain_keys_passed_over_witness :
  read_console_key true (mk_key true 0x10 0x2a 0 SHIFT_PRESSED) buffer8 = None
  /\ read_console_key true (mk_key true 0x70 0x3b 0 LEFT_CTRL_PRESSED) buffer8
     = None.
Proof.
  split.
  - apply plain_keys_passed_over;
      [reflexivity|reflexivity|reflexivity|reflexivity|left; reflexivity].
  - apply plain_keys_passed_over;
      [reflexivity|reflexivity|reflexivity|reflexivity
      |right; split; discriminate].
Defined.

(** ** What [write] leaves alone *)

(** The parts of console and session that no output call touches. *)
Lemma write_code_frame (code : Ecma48.ecma48_code) (h : host_console)
    (t : win_terminal) :
  let s := write_code (h, t) code in
  in_mode (fst s) = in_mode h
  /\ out_mode (fst s) = out_mode h
  /\ input_queue (fst s) = input_queue h
  /\ t_in (snd s) = t_in t
  /\ m_enable_c1 (snd s) = m_enable_c1 t
  /\ m_default_attr (t_out (snd s)) = m_default_attr (t_out t)
  /\ m_prev_mode_out (t_out (snd s)) = m_prev_mode_out (t_out t)
  /\ (m_attr (t_out t) = wAttributes h ->
      m_attr (t_out (snd s)) = wAttributes (fst s)).
Proof.
  destruct code as [chars|c0|c chars]; cbn [write_code].
  - cbn. tauto.
  - unfold write_c0. destruct (c0 =? 0x07); cbn; tauto.
  - unfold write_c1. destruct (m_enable_c1 t) eqn:Een; cbn [negb];
      [|cbn; tauto].
    destruct (c =? Ecma48.c1_csi); cbn [negb]; [|cbn; tauto].
    destruct (Ecma48.decode_csi chars 32) as [final params].
    destruct (final =? chr "m"); cbn; tauto.
Qed.

Lemma write_codes_frame (codes : list Ecma48.ecma48_code) :
  forall (h : host_console) (t : win_terminal),
    let s := fold_left write_code codes (h, t) in
    in_mode (fst s) = in_mode h
    /\ out_mode (fst s) = out_mode h
    /\ input_queue (fst s) = input_queue h
    /\ t_in (snd s) = t_in t
    /\ m_enable_c1 (snd s) = m_enable_c1 t
    /\ m_default_attr (t_out (snd s)) = m_default_attr (t_out t)
    /\ m_prev_mode_out (t_out (snd s)) = m_prev_mode_out (t_out t)
    /\ (m_attr (t_out t) = wAttributes h ->
        m_attr (t_out (snd s)) = wAttributes (fst s)).
Proof.
  induction codes as [|code codes IH]; intros h t; cbn [fold_left].
  - cbn. tauto.
  - pose proof (write_code_frame code h t) as H1.
    destruct (write_code (h, t) code) as [h1 t1]. cbn [fst snd] in H1.
    specialize (IH h1 t1). cbn zeta in *.
    destruct H1 as (A1 & A2 & A3 & A4 & A5 & A6 & A7 & A8).
    destruct IH as (B1 & B2 & B3 & B4 & B5 & B6 & B7 & B8).
    repeat (split; [congruence|]). auto.
Qed.

(** X14: a call of [write], whatever the bytes and the parse state, leaves
    the console modes and the input queue, the input side of the session,
    the interpretation flag, the default attribute and the saved output
    mode as they are; and if the session's current attribute agreed with
    the console's before the call, it does so after it. *)
Theorem write_frame (chars : list Z) (h : host_console) (t : win_terminal) :
  let s := write chars h t in
  in_mode (fst s) = in_mode h
  /\ out_mode (fst s) = out_mode h
  /\ input_queue (fst s) = input_queue h
  /\ t_in (snd s) = t_in t
  /\ m_enable_c1 (snd s) = m_enable_c1 t
  /\ m_default_attr (t_out (snd s)) = m_default_attr (t_out t)
  /\ m_prev_mode_out (t_out (snd s)) = m_prev_mode_out (t_out t)
  /\ (m_attr (t_out t) = wAttributes h ->
      m_attr (t_out (snd s)) = wAttributes (fst s)).
Proof.
  cbn zeta. rewrite write_unfold. cbn [fst snd set_state t_in m_enable_c1 t_out].
  apply write_codes_frame.
Qed.

Lemma write_frame_witness :
  let s := write [0x1b; 0x5b; 0x33; 0x31; 0x6d; 0x41] (console 7)
                 (session 7 true) in
  m_attr (t_out (snd s)) = wAttributes (fst s).
Proof.
  intros s.
  apply (write_frame [0x1b; 0x5b; 0x33; 0x31; 0x6d; 0x41] (console 7)
                     (session 7 true)).
  reflexivity.
Defined.

(** ** The session between [begin] and [end] *)

Lemma push_frame (value : Z) (t : win_terminal_in) :
  m_prev_mode_in (push value t) = m_prev_mode_in t.
Proof.
  unfold push. destruct (_ <=? _); [reflexivity|].
  now destruct (value <? 0x80).
Qed.

Lemma read_console_key_frame (altgr_setting : bool) (key : KEY_EVENT_RECORD)
    (t t' : win_terminal_in) :
  read_console_key altgr_setting key t = Some t' ->
  m_prev_mode_in t' = m_prev_mode_in t.
Proof.
  unfold read_console_key.
  repeat match goal with
         | |- context [if ?b then _ else _] => destruct b
         | |- context [match ?x with Some _ => _ | None => _ end] =>
             destruct x as [[[? ?] ?]|] || destruct x
         | |- Some _ = Some _ -> _ => intros [= <-]
         | |- None = Some _ -> _ => discriminate
         | |- (let '(_, _) := ?p in _) = _ -> _ => destruct p
         end;
    rewrite ?push_frame; reflexivity.
Qed.

Lemma read_console_frame (fuel : nat) :
  forall (g g' : globals) (h h' : host_console) (t t' : win_terminal_in),
    read_console fuel g h t = Some (g', h', t') ->
    m_prev_mode_in t' = m_prev_mode_in t.
Proof.
  induction fuel as [|fuel IH]; intros g g' h h' t t'; cbn [read_console];
    [discriminate|].
  destruct (_ || _); [apply IH|].
  destruct (input_queue h) as [|record queue]; [discriminate|].
  destruct (negb _); [apply IH|].
  destruct (_ =? WINDOW_BUFFER_SIZE_EVENT); [apply IH|].
  destruct (read_console_key _ _ t) as [t1|] eqn:Ekey; [|apply IH].
  intros [= <- <- <-]. eapply read_console_key_frame. exact Ekey.
Qed.

(** What [end] writes back: the two saved modes and the default
    attribute. *)
Lemma run_call_keeps_saved (c : Session.call)
    (g g' : globals) (h h' : host_console) (t t' : win_terminal) :
  Session.run_call (g, h, t) c = Some (g', h', t') ->
  m_prev_mode_in (t_in t') = m_prev_mode_in (t_in t)
  /\ m_prev_mode_out (t_out t') = m_prev_mode_out (t_out t)
  /\ m_default_attr (t_out t') = m_default_attr (t_out t).
Proof.
  destruct c as [fuel| |chars|]; cbn [Session.run_call].
  - unfold Session.select, select.
    destruct (negb _).
    + destruct (read_console fuel g h (t_in t)) as [[[g1 h1] i]|] eqn:E;
        [|discriminate].
      intros [= <- <- <-]. cbn. split; [|tauto].
      eapply read_console_frame. exact E.
    + intros [= <- <- <-]. cbn. tauto.
  - intros [= <- <- <-]. unfold Session.read, read, pop.
    destruct (m_buffer_count (t_in t) =? 0); cbn [fst snd].
    + cbn. tauto.
    + destruct (negb _); cbn; tauto.
  - pose proof (write_frame chars h t) as H. cbn zeta in H.
    destruct (write chars h t) as [h1 t1]. cbn [fst snd] in H.
    intros [= <- <- <-].
    destruct H as (_ & _ & _ & -> & _ & -> & -> & _). tauto.
  - intros [= <- <- <-]. cbn. tauto.
Qed.

Lemma run_calls_keeps_saved (cs : list Session.call) :
  forall (g g' : globals) (h h' : host_console) (t t' : win_terminal),
    Session.run_calls cs (g, h, t) = Some (g', h', t') ->
    m_prev_mode_in (t_in t') = m_prev_mode_in (t_in t)
    /\ m_prev_mode_out (t_out t') = m_prev_mode_out (t_out t)
    /\ m_default_attr (t_out t') = m_default_attr (t_out t).
Proof.
  induction cs as [|c cs IH]; intros g g' h h' t t'; cbn [Session.run_calls].
  - intros [= <- <- <-]. tauto.
  - destruct (Session.run_call (g, h, t) c) as [[[g1 h1] t1]|] eqn:E;
      [|discriminate].
    intros Hrest. apply IH in Hrest. apply run_call_keeps_saved in E.
    destruct E as (E1 & E2 & E3), Hrest as (R1 & R2 & R3).
    repeat split; congruence.
Qed.

(** X15: whatever a client calls between [begin] and [end] ([select],
    [read], [write], [check_c1_support], any number of times and in any
    order, provided the calls return), [end] puts the console's input and
    output mode back to their values before [begin] and sets the
    attribute to the low eight bits of its value before [begin]. *)
Theorem session_restores_console (cs : list Session.call)
    (g g' : globals) (h h' : host_console) (t t' : win_terminal) :
  Session.run_calls cs (g, fst (begin h t), snd (begin h t))
  = Some (g', h', t') ->
  let h_end := fst (end_ h' t') in
  in_mode h_end = in_mode h
  /\ out_mode h_end = out_mode h
  /\ wAttributes h_end = Z.land (wAttributes h) 0xff.
Proof.
  intros Hrun. apply run_calls_keeps_saved in Hrun.
  destruct Hrun as (Hin & Hout & Hattr). cbn in Hin, Hout, Hattr |- *.
  rewrite Hin, Hout, Hattr. repeat split. apply land_255_uchar.
Qed.

Lemma session_restores_console_witness :
  let h := set_input_queue
             [mk_record KEY_EVENT (mk_key true 0x41 0x1e 0x61 0)]
             (console 0x4007) in
  let cs := [Session.call_write [0x1b; 0x5b; 0x33; 0x31; 0x6d; 0x41];
             Session.call_select 2; Session.call_read] in
  exists g' h' t',
    Session.run_calls cs (default_settings, fst (begin h (session 0 true)),
                          snd (begin h (session 0 true)))
    = Some (g', h', t')
    /\ in_mode (fst (end_ h' t')) = 0x01f7
    /\ wAttributes (fst (end_ h' t')) = 0x07.
Proof.
  intros h cs.
  destruct (Session.run_calls cs
              (default_settings, fst (begin h (session 0 true)),
               snd (begin h (session 0 true))))
    as [[[g' h'] t']|] eqn:E; [|discriminate E].
  exists g', h', t'. split; [reflexivity|].
  destruct (session_restores_console cs default_settings g' h h'
              (session 0 true) t' E) as (Hin & _ & Hattr).
  rewrite Hin, Hattr. split; reflexivity.
Defined.

(** ** SGR parameters, one by one *)

Lemma upto_check (P : Z -> bool) (lo : Z) (n : nat) :
  forallb P (upto lo n) = true ->
  forall x, lo <= x < lo + Z.of_nat n -> P x = true.
Proof.
  intros Hall x Hx. rewrite forallb_forall in Hall. apply Hall.
  unfold upto. apply in_map_iff. exists (Z.to_nat (x - lo)).
  split; [lia|]. apply in_seq. lia.
Qed.

Lemma upto_check2 (P : Z -> Z -> bool) (lo1 lo2 : Z) (n1 n2 : nat) :
  forallb (fun x => forallb (P x) (upto lo2 n2)) (upto lo1 n1) = true ->
  forall x y,
    lo1 <= x < lo1 + Z.of_nat n1 -> lo2 <= y < lo2 + Z.of_nat n2 ->
    P x y = true.
Proof.
  intros Hall x y Hx Hy.
  pose proof (upto_check _ lo1 n1 Hall x Hx) as Hrow.
  exact (upto_check _ lo2 n2 Hrow y Hy).
Qed.

Lemma sgr_param_byte (default_attr attr param : Z) :
  0 <= default_attr < 256 -> 0 <= attr < 256 ->
  0 <= sgr_param default_attr attr param < 256.
Proof.
  intros Hd Ha. unfold sgr_param, to_uchar.
  repeat match goal with
         | |- context [if ?b then _ else _] => destruct b
         end;
    try lia; apply Z.mod_pos_bound; lia.
Qed.

(** X16: [write_sgr] keeps the attribute a byte and the console in step:
    from a current and a default attribute below 256, any parameter list
    leaves a current attribute below 256, and that value is what the
    console's attribute is set to. *)
Theorem write_sgr_attr_byte (params : list Z) (h : host_console)
    (t : win_terminal) :
  0 <= m_default_attr (t_out t) < 256 ->
  0 <= m_attr (t_out t) < 256 ->
  let s := write_sgr params h t in
  0 <= m_attr (t_out (snd s)) < 256
  /\ wAttributes (fst s) = m_attr (t_out (snd s))
  /\ m_default_attr (t_out (snd s)) = m_default_attr (t_out t).
Proof.
  intros Hd Ha. unfold write_sgr, get_attr, get_default_attr.
  cbn [set_attr fst snd set_out t_out m_attr m_default_attr wAttributes
       SetConsoleTextAttribute].
  split; [|split; reflexivity].
  generalize dependent (m_attr (t_out t)).
  induction params as [|param params IH]; intros attr Ha; cbn [fold_left].
  - exact Ha.
  - apply IH. now apply sgr_param_byte.
Qed.

Lemma write_sgr_attr_byte_witness :
  let s := write_sgr [1; 35; 45; 7] (console 7) (session 7 true) in
  0 <= m_attr (t_out (snd s)) < 256
  /\ wAttributes (fst s) = m_attr (t_out (snd s)).
Proof.
  intros s.
  destruct (write_sgr_attr_byte [1; 35; 45; 7] (console 7) (session 7 true))
    as (Hb & Hw & _); [split; discriminate || reflexivity
                      |split; discriminate || reflexivity|].
  split; [exact Hb|exact Hw].
Defined.

(** X17: a parameter list that ends in 0 resets the attribute: whatever
    the parameters before it and the current attribute, the session and
    the console end up with the default attribute. *)
Theorem write_sgr_reset (params : list Z) (h : host_console)
    (t : win_terminal) :
  let s := write_sgr (params ++ [0]) h t in
  m_attr (t_out (snd s)) = m_default_attr (t_out t)
  /\ wAttributes (fst s) = m_default_attr (t_out t).
Proof.
  unfold write_sgr, get_attr, get_default_attr.
  rewrite fold_left_app. cbn. tauto.
Qed.

(** X18: foreground colours.  For a parameter from 30 to 37 one round of
    the loop puts the palette entry of [param - 30] into the three low
    bits and keeps the other five bits of the attribute. *)
Theorem sgr_foreground (default_attr attr param : Z) :
  0 <= attr < 256 ->
  30 <= param <= 37 ->
  Z.land (sgr_param default_attr attr param) 0x07 = sgr_to_attr (param - 30)
  /\ Z.land (sgr_param default_attr attr param) 0xf8 = Z.land attr 0xf8.
Proof.
  intros Ha Hp.
  assert (Hfree : sgr_param default_attr attr param = sgr_param 0 attr param).
  { unfold sgr_param.
    repeat match goal with
           | |- context [param =? ?b] =>
               replace (param =? b) with false
                 by (symmetry; apply Z.eqb_neq; lia)
           end.
    cbn [orb].
    replace (param - 30 <? 8) with true by (symmetry; apply Z.ltb_lt; lia).
    reflexivity. }
  rewrite Hfree.
  pose proof (upto_check2
                (fun a p =>
                   (Z.land (sgr_param 0 a p) 0x07 =? sgr_to_attr (p - 30))
                   && (Z.land (sgr_param 0 a p) 0xf8 =? Z.land a 0xf8))
                0 30 256 8 ltac:(vm_compute; reflexivity) attr param
                ltac:(lia) ltac:(lia)) as H.
  apply andb_true_iff in H as [H1 H2].
  now apply Z.eqb_eq in H1, H2.
Qed.

Lemma sgr_foreground_witness :
  Z.land (sgr_param 0x07 0x9f 31) 0x07 = 0x04
  /\ Z.land (sgr_param 0x07 0x9f 31) 0xf8 = 0x98.
Proof.
  apply (sgr_foreground 0x07 0x9f 31); split; discriminate || reflexivity.
Defined.

Lemma sgr_param_default_free (d d' attr param : Z) :
  param <> 0 -> sgr_param d attr param = sgr_param d' attr param.
Proof.
  intros Hp. unfold sgr_param.
  destruct (param =? 0) eqn:E0; [apply Z.eqb_eq in E0; contradiction|].
  destruct (param =? 1); [reflexivity|].
  destruct ((param =? 2) || (param =? 22)); [reflexivity|].
  destruct (param =? 4); [reflexivity|].
  destruct (param =? 24); [reflexivity|].
  destruct (param - 30 <? 8); [reflexivity|].
  destruct (param - 90 <? 8) eqn:E90; [reflexivity|].
  apply Z.ltb_ge in E90.
  replace (param =? 39) with false by (symmetry; apply Z.eqb_neq; lia).
  replace (param - 40 <? 8) with false by (symmetry; apply Z.ltb_ge; lia).
  destruct (param - 100 <? 8); [reflexivity|].
  replace (param =? 49) with false by (symmetry; apply Z.eqb_neq; lia).
  reflexivity.
Qed.

(** X19: the intensity parameters.  On an attribute below 256, 1 sets
    bit 3, 2 and 22 clear it, 4 sets bit 7 and 24 clears it, and none of
    them changes another bit. *)
Theorem sgr_intensity (default_attr attr : Z) :
  0 <= attr < 256 ->
  sgr_param default_attr attr 1 = Z.lor attr 0x08
  /\ sgr_param default_attr attr 2 = Z.land attr 0xf7
  /\ sgr_param default_attr attr 22 = Z.land attr 0xf7
  /\ sgr_param default_attr attr 4 = Z.lor attr 0x80
  /\ sgr_param default_attr attr 24 = Z.land attr 0x7f.
Proof.
  intros Ha.
  rewrite !(sgr_param_default_free default_attr 0) by discriminate.
  pose proof (upto_check
                (fun a =>
                   (sgr_param 0 a 1 =? Z.lor a 0x08)
                   && (sgr_param 0 a 2 =? Z.land a 0xf7)
                   && (sgr_param 0 a 22 =? Z.land a 0xf7)
                   && (sgr_param 0 a 4 =? Z.lor a 0x80)
                   && (sgr_param 0 a 24 =? Z.land a 0x7f))
                0 256 ltac:(vm_compute; reflexivity) attr ltac:(lia)) as H.
  rewrite !andb_true_iff, !Z.eqb_eq in H. tauto.
Qed.

Lemma sgr_intensity_witness :
  sgr_param 0x07 0x07 1 = 0x0f /\ sgr_param 0x07 0x0f 22 = 0x07.
Proof.
  split.
  - apply (sgr_intensity 0x07 0x07). split; discriminate || reflexivity.
  - apply (sgr_intensity 0x07 0x0f). split; discriminate || reflexivity.
Defined.

(** X20: every parameter from 38 to 97 takes the branch of the bright
    foreground colours 90 to 97, because [param - 90 < 8] is a signed
    test that comes before the tests for 39, 40 to 47 and 49: bit 3 is
    set, the three low bits become the palette entry of [param - 90]
    modulo 8, and the four high bits, the background among them, stay as
    they are.  The default attribute is read by parameter 0 alone. *)
Theorem sgr_38_to_97 (default_attr attr param : Z) :
  0 <= attr < 256 ->
  38 <= param <= 97 ->
  Z.land (sgr_param default_attr attr param) 0x07
  = sgr_to_attr ((param - 90) mod 8)
  /\ Z.land (sgr_param default_attr attr param) 0x08 = 0x08
  /\ Z.land (sgr_param default_attr attr param) 0xf0 = Z.land attr 0xf0.
Proof.
  intros Ha Hp.
  rewrite !(sgr_param_default_free default_attr 0) by lia.
  pose proof (upto_check2
                (fun a p =>
                   (Z.land (sgr_param 0 a p) 0x07
                    =? sgr_to_attr ((p - 90) mod 8))
                   && (Z.land (sgr_param 0 a p) 0x08 =? 0x08)
                   && (Z.land (sgr_param 0 a p) 0xf0 =? Z.land a 0xf0))
                0 38 256 60 ltac:(vm_compute; reflexivity) attr param
                ltac:(lia) ltac:(lia)) as H.
  rewrite !andb_true_iff, !Z.eqb_eq in H. tauto.
Qed.

Lemma sgr_38_to_97_witness :
  Z.land (sgr_param 0x07 0x07 45) 0x07 = 0x06
  /\ Z.land (sgr_param 0x07 0x07 45) 0x08 = 0x08
  /\ Z.land (sgr_param 0x07 0x07 45) 0xf0 = 0x00.
Proof.
  apply (sgr_38_to_97 0x07 0x07 45); split; discriminate || reflexivity.
Defined.

(** X21: bright background colours.  For a parameter from 100 to 107 one
    round of the loop sets bit 7, puts the palette entry of
    [param - 100] into bits 4 to 6 and keeps the four low bits. *)
Theorem sgr_bright_background (default_attr attr param : Z) :
  0 <= attr < 256 ->
  100 <= param <= 107 ->
  Z.land (Z.shiftr (sgr_param default_attr attr param) 4) 0x07
  = sgr_to_attr (param - 100)
  /\ Z.land (sgr_param default_attr attr param) 0x80 = 0x80
  /\ Z.land (sgr_param default_attr attr param) 0x0f = Z.land attr 0x0f.
Proof.
  intros Ha Hp.
  rewrite !(sgr_param_default_free default_attr 0) by lia.
  pose proof (upto_check2
                (fun a p =>
                   (Z.land (Z.shiftr (sgr_param 0 a p) 4) 0x07
                    =? sgr_to_attr (p - 100))
                   && (Z.land (sgr_param 0 a p) 0x80 =? 0x80)
                   && (Z.land (sgr_param 0 a p) 0x0f =? Z.land a 0x0f))
                0 100 256 8 ltac:(vm_compute; reflexivity) attr param
                ltac:(lia) ltac:(lia)) as H.
  rewrite !andb_true_iff, !Z.eqb_eq in H. tauto.
Qed.

Lemma sgr_bright_background_witness :
  Z.land (Z.shiftr (sgr_param 0x07 0x07 104) 4) 0x07 = 0x01
  /\ Z.land (sgr_param 0x07 0x07 104) 0x80 = 0x80
  /\ Z.land (sgr_param 0x07 0x07 104) 0x0f = 0x07.
Proof.
  apply (sgr_bright_background 0x07 0x07 104);
    split; discriminate || reflexivity.
Defined.

(** ** Pipes and the job object *)

Module HandleFacts.
Import Handles.

Lemma inherit_flag (flags : Z) :
  truthy (Z.land flags (Z.lor ReadHandleInheritable WriteHandleInheritable))
  = truthy (Z.land flags ReadHandleInheritable)
    || truthy (Z.land flags WriteHandleInheritable).
Proof.
  rewrite Z.land_lor_distr_r. unfold truthy.
  destruct (Z.land flags ReadHandleInheritable =? 0) eqn:Er;
    destruct (Z.land flags WriteHandleInheritable =? 0) eqn:Ew;
    cbn [negb orb];
    rewrite ?Z.eqb_eq, ?Z.eqb_neq in *.
  - rewrite Er, Ew. reflexivity.
  - apply negb_true_iff, Z.eqb_neq. rewrite Z.lor_eq_0_iff. tauto.
  - apply negb_true_iff, Z.eqb_neq. rewrite Z.lor_eq_0_iff. tauto.
  - apply negb_true_iff, Z.eqb_neq. rewrite Z.lor_eq_0_iff. tauto.
Qed.

(** X22: [create_pipe] gives each end the inheritance asked for.  When
    [CreatePipe] succeeds with two different handles, the function returns
    1, the read end is inheritable exactly when [ReadHandleInheritable] is
    among the flags and the write end exactly when
    [WriteHandleInheritable] is, and no other handle is touched; when
    [CreatePipe] fails it returns 0 with both ends of the pipe null and
    the handles as they were. *)
Theorem create_pipe_inheritance (flags : Z) (os : option (Z * Z))
    (k : gmap Z bool) :
  (forall r w, os = Some (r, w) -> r <> w ->
     exists k',
       create_pipe flags os k = (1, mk_pipe r w, k')
       /\ k' !! r = Some (truthy (Z.land flags ReadHandleInheritable))
       /\ k' !! w = Some (truthy (Z.land flags WriteHandleInheritable))
       /\ forall other, other <> r -> other <> w -> k' !! other = k !! other)
  /\ (os = None -> create_pipe flags os k = (0, mk_pipe 0 0, k)).
Proof.
  split; [|intros ->; reflexivity].
  intros r w -> Hrw. unfold create_pipe. rewrite inherit_flag.
  cbn [pipe_read pipe_write]. eexists. split; [reflexivity|].
  unfold clear_inherit.
  destruct (truthy (Z.land flags ReadHandleInheritable));
    destruct (truthy (Z.land flags WriteHandleInheritable));
    cbn [negb orb];
    repeat split; intros;
    repeat first
      [ rewrite lookup_alter_eq | rewrite lookup_alter_ne by congruence
      | rewrite lookup_insert_eq | rewrite lookup_insert_ne by congruence ];
    reflexivity.
Qed.

Lemma create_pipe_inheritance_witness :
  exists k',
    create_pipe WriteHandleInheritable (Some (0x10, 0x14)) ∅
    = (1, mk_pipe 0x10 0x14, k')
    /\ k' !! 0x10 = Some false /\ k' !! 0x14 = Some true.
Proof.
  destruct (create_pipe_inheritance WriteHandleInheritable
              (Some (0x10, 0x14)) ∅) as [Hok _].
  destruct (Hok 0x10 0x14 eq_refl ltac:(discriminate))
    as (k' & Hrun & Hr & Hw & _).
  exists k'. split; [exact Hrun|]. split; [exact Hr|exact Hw].
Defined.

(** X23: pipes do not leak.  [destroy_pipe] after a successful
    [create_pipe] (two new handles, neither null) leaves the handles of the
    process as they were before the pair of calls and the pipe with both
    ends null; after a failed [create_pipe] it changes nothing; and a
    second [destroy_pipe] on the same pipe changes nothing either. *)
Theorem create_destroy_pipe (flags : Z) (os : option (Z * Z))
    (k : gmap Z bool) :
  (forall r w, os = Some (r, w) ->
     r <> 0 /\ w <> 0 /\ r <> w /\ k !! r = None /\ k !! w = None) ->
  let '(_, pipe, k1) := create_pipe flags os k in
  let '(pipe2, k2) := destroy_pipe pipe k1 in
  k2 = k
  /\ pipe2 = mk_pipe 0 0
  /\ destroy_pipe pipe2 k2 = (pipe2, k2).
Proof.
  intros Hfresh. destruct os as [[r w]|].
  - destruct (Hfresh r w eq_refl) as (Hr & Hw & Hrw & Hkr & Hkw).
    unfold create_pipe, destroy_pipe, clear_inherit, CloseHandle.
    cbn [pipe_read pipe_write].
    rewrite (truthy_true r Hr). cbn iota beta.
    cbn [pipe_read pipe_write]. rewrite (truthy_true w Hw).
    split; [|split; [reflexivity|]].
    2:{ unfold destroy_pipe. reflexivity. }
    apply map_eq. intros i.
    destruct (decide (i = w)) as [->|Hiw];
      [now rewrite lookup_delete_eq|rewrite lookup_delete_ne by congruence].
    destruct (decide (i = r)) as [->|Hir];
      [now rewrite lookup_delete_eq|rewrite lookup_delete_ne by congruence].
    destruct (negb (truthy (Z.land flags ReadHandleInheritable)));
      destruct (negb (truthy (Z.land flags WriteHandleInheritable)));
      repeat first
        [ rewrite lookup_alter_ne by congruence
        | rewrite lookup_insert_ne by congruence ];
      reflexivity.
  - cbn. repeat split.
Qed.

Lemma create_destroy_pipe_witness :
  let '(_, pipe, k1) :=
    create_pipe ReadHandleInheritable (Some (0x10, 0x14)) {[0x08 := false]} in
  snd (destroy_pipe pipe k1) = {[0x08 := false]}.
Proof.
  pose proof (create_destroy_pipe ReadHandleInheritable (Some (0x10, 0x14))
                {[0x08 := false]}) as H.
  destruct (create_pipe ReadHandleInheritable (Some (0x10, 0x14))
                        {[0x08 := false]}) as [[ret pipe] k1].
  destruct (destroy_pipe pipe k1) as [pipe2 k2]. cbn [snd].
  apply H. intros r w [= <- <-].
  repeat split; discriminate || reflexivity.
Defined.

(** X24: [create_job] keeps no handle it does not return.  Given that a
    handle from [CreateJobObject] is new and not null, the function
    returns null exactly when [CreateJobObject] or
    [SetInformationJobObject] fails, and then the handles of the process
    are as before; otherwise it returns the new handle, open and not
    inheritable. *)
Theorem create_job_no_leak (os : option Z) (limit_set : bool)
    (k : gmap Z bool) :
  (forall handle, os = Some handle -> handle <> 0 /\ k !! handle = None) ->
  let '(job, k') := create_job os limit_set k in
  (job = 0 <-> os = None \/ limit_set = false)
  /\ (job = 0 -> k' = k)
  /\ (job <> 0 -> os = Some job /\ k' = <[job := false]> k).
Proof.
  intros Hfresh. unfold create_job, CloseHandle.
  destruct os as [handle|].
  - destruct (Hfresh handle eq_refl) as [Hnz Hnew].
    destruct limit_set; cbn [negb].
    + split; [split; [contradiction|intros [H|H]; discriminate]|].
      split; [contradiction|]. intros _. split; reflexivity.
    + split; [split; auto|]. split; [|intros H; now contradiction H].
      intros _. now rewrite delete_insert_eq, delete_id.
  - split; [split; auto|]. split; [reflexivity|]. intros H. now contradiction H.
Qed.

Lemma create_job_no_leak_witness :
  snd (create_job (Some 0x20) false {[0x08 := false]}) = {[0x08 := false]}.
Proof.
  pose proof (create_job_no_leak (Some 0x20) false {[0x08 := false]}) as H.
  destruct (create_job (Some 0x20) false {[0x08 := false]}) as [job k'] eqn:E.
  cbn [snd].
  destruct H as (Hiff & Hnull & _).
  - intros handle [= <-]. split; [discriminate|reflexivity].
  - apply Hnull, Hiff. now right.
Defined.

End HandleFacts.

(** ** The output buffer of [lua_execute], NUL bytes included *)

Module LuaOutputFacts.
Import LuaExec LuaExecFacts.

(** What may follow the text in the buffer: nothing, or a NUL byte and
    whatever comes after it. *)
Lemma strpbrk_eols_nul (l tl : list Z) :
  Forall (fun c => c <> 0) l -> Forall (fun c => is_eol c = false) l ->
  (forall c, head tl = Some c -> c = 0) ->
  strpbrk_eols (l ++ tl) = None /\ strlen (l ++ tl) = length l.
Proof.
  intros Hl Hl' Htl. induction l as [|c l IH]; cbn [app].
  - destruct tl as [|c tl]; [split; reflexivity|].
    rewrite (Htl c eq_refl). split; reflexivity.
  - inversion Hl as [|? ? Hc Hl1]; inversion Hl' as [|? ? Hc' Hl1']; subst.
    destruct (IH Hl1 Hl1') as [IH1 IH2]. cbn.
    destruct (c =? 0) eqn:E; [apply Z.eqb_eq in E; contradiction|].
    rewrite Hc', IH1, IH2. split; reflexivity.
Qed.

Lemma byte_at_end (a tl : list Z) :
  (forall c, head tl = Some c -> c = 0) ->
  byte_at (a ++ tl) (length a) = 0.
Proof.
  intros Htl. destruct tl as [|c tl].
  - unfold byte_at. rewrite lookup_ge_None_2 by (rewrite app_nil_r; lia).
    reflexivity.
  - rewrite byte_at_app. now apply Htl.
Qed.

Lemma next_line_last (a l tl : list Z) :
  Forall (fun c => c <> 0) l -> Forall (fun c => is_eol c = false) l ->
  (forall c, head tl = Some c -> c = 0) ->
  next_line (a ++ l ++ tl) (length a) = (a ++ l ++ tl, None)
  /\ c_string (a ++ l ++ tl) (length a) = l.
Proof.
  intros Hl Hl' Htl.
  destruct (strpbrk_eols_nul l tl Hl Hl' Htl) as [Hbrk Hlen].
  unfold next_line, c_string. rewrite drop_app_length, Hbrk, Hlen.
  rewrite take_app_length. split; [|reflexivity].
  rewrite app_assoc, <- length_app, byte_at_end by exact Htl.
  reflexivity.
Qed.

Lemma next_line_more (a l es r tl : list Z) (e : Z) :
  Forall (fun c => c <> 0) l -> Forall (fun c => is_eol c = false) l ->
  is_eol e = true -> Forall (fun c => is_eol c = true) es ->
  (forall c, head r = Some c -> is_eol c = false) ->
  Forall (fun c => c <> 0) r ->
  (forall c, head tl = Some c -> c = 0) ->
  next_line (a ++ l ++ e :: es ++ r ++ tl) (length a)
  = (a ++ l ++ 0 :: replicate (length es) 0 ++ r ++ tl,
     match r with
     | [] => None
     | _ :: _ => Some (length (a ++ l ++ 0 :: replicate (length es) 0))
     end).
Proof.
  intros Hl Hl' He Hes Hr Hr0 Htl. unfold next_line.
  rewrite drop_app_length, strpbrk_eols_found by assumption.
  replace (length (a ++ l ++ e :: es ++ r ++ tl) - S (length a + length l))%nat
    with (length es + length (r ++ tl))%nat
    by (rewrite !length_app; cbn [length]; rewrite !length_app; lia).
  rewrite (app_assoc a l), <- (length_app a l).
  assert (Hhead : forall c, head (r ++ tl) = Some c -> is_eol c = false).
  { intros c. destruct r as [|c' r]; [|exact (Hr c)].
    cbn [app]. intros Hc. now rewrite (Htl c Hc). }
  rewrite zero_eols_run by assumption.
  rewrite <- (app_assoc a l). f_equal.
  replace (S (length (a ++ l) + length es))
    with (length (a ++ l ++ 0 :: replicate (length es) 0))
    by (rewrite !length_app; cbn [length]; rewrite length_replicate; lia).
  replace (a ++ l ++ 0 :: replicate (length es) 0 ++ r ++ tl)
    with ((a ++ l ++ 0 :: replicate (length es) 0) ++ r ++ tl)
    by (now rewrite <- !app_assoc).
  destruct r as [|c r].
  - cbn [app]. now rewrite byte_at_end.
  - cbn [app]. rewrite byte_at_app. inversion Hr0; subst.
    now rewrite truthy_true.
Qed.

(** The loop on a text followed by nothing or by a NUL byte. *)
Lemma extract_lines_text (fuel : nat) :
  forall (s a tl : list Z) (count : Z) (tbl : gmap Z (list Z)),
    Forall (fun c => c <> 0) s ->
    (forall c, head tl = Some c -> c = 0) ->
    (length s < fuel)%nat ->
    extract_lines fuel (a ++ s ++ tl) (length a) count tbl
    = Some (number_from count (lines s) tbl).
Proof.
  induction fuel as [|fuel IH]; intros s a tl count tbl Hs Htl Hfuel; [lia|].
  cbn [extract_lines].
  destruct (span is_eol s) as (l & rest & -> & Hl & Hrest).
  apply Forall_app in Hs as [Hl0 Hrest0].
  destruct rest as [|e rest].
  - rewrite app_nil_r in *.
    destruct (next_line_last a l tl Hl0 Hl Htl) as [-> ->].
    rewrite lines_clean by assumption. reflexivity.
  - specialize (Hrest e eq_refl).
    destruct (span (fun c => negb (is_eol c)) rest)
      as (es & r & -> & Hes & Hr).
    assert (Hes' : Forall (fun c => is_eol c = true) es).
    { eapply Forall_impl; [exact Hes|]. cbn. intros c Hc.
      now apply negb_false_iff. }
    assert (Hr' : forall c, head r = Some c -> is_eol c = false).
    { intros c Hc. apply negb_true_iff. now apply Hr. }
    inversion Hrest0 as [|? ? _ Hrest1]; subst.
    apply Forall_app in Hrest1 as [_ Hr0].
    replace ((l ++ e :: es ++ r) ++ tl) with (l ++ e :: es ++ r ++ tl)
      by (now rewrite <- !app_assoc; cbn; rewrite <- app_assoc).
    rewrite next_line_more, lines_cut by assumption.
    rewrite c_string_at by assumption.
    destruct r as [|c r].
    + reflexivity.
    + rewrite kept_text by (now apply Hr').
      replace (a ++ l ++ 0 :: replicate (length es) 0 ++ (c :: r) ++ tl)
        with ((a ++ l ++ 0 :: replicate (length es) 0) ++ (c :: r) ++ tl)
        by (now rewrite <- !app_assoc).
      rewrite IH; [reflexivity|exact Hr0|exact Htl|].
      rewrite !length_app in Hfuel. cbn [length] in Hfuel.
      rewrite !length_app in Hfuel. cbn [length] in *. lia.
Qed.

(** Any buffer is a text without NUL followed by nothing or by a NUL
    byte; the text is the C string at the start of the buffer. *)
Lemma buffer_text (buf : list Z) :
  exists tl,
    buf = c_string buf 0 ++ tl
    /\ Forall (fun c => c <> 0) (c_string buf 0)
    /\ (forall c, head tl = Some c -> c = 0).
Proof.
  unfold c_string. rewrite drop_0. exists (drop (strlen buf) buf).
  split; [now rewrite take_drop|].
  induction buf as [|c buf (IH1 & IH2)]; cbn [strlen].
  - split; [constructor|discriminate].
  - destruct (c =? 0) eqn:E.
    + apply Z.eqb_eq in E. subst. split; [constructor|].
      now intros c [= <-].
    + apply Z.eqb_neq in E. cbn [take drop]. split; [now constructor|exact IH2].
Qed.

Lemma lua_execute_launched (rt : lua_runtime) (os : exec_host)
    (cmd : list Z) (rest : list lua_value) (p : process) :
  create_job os = true ->
  launch os cmd (exec_timeout rt (LString cmd :: rest)) = Launched p ->
  lua_execute rt os (LString cmd :: rest)
  = Some [LTable (number_from 0 (lines (c_string (stdout_bytes p) 0)) ∅);
          LNumber (default 4294967295 (exit_code p))].
Proof.
  intros Hjob Hlaunch. unfold lua_execute.
  cbn [length lookup list_lookup default lua_isstring lua_tostring].
  change (bool_decide (S (length rest) = 0%nat)) with false.
  cbn [orb negb from_option id]. rewrite Hjob. cbn [negb].
  cbn [from_option id lua_tostring]. rewrite Hlaunch.
  destruct (buffer_text (stdout_bytes p)) as (tl & Hbuf & Htext & Htl).
  assert (Hlen : (length (c_string (stdout_bytes p) 0)
                  < S (length (stdout_bytes p)))%nat).
  { rewrite Hbuf at 2. rewrite length_app. lia. }
  rewrite Hbuf at 2.
  rewrite (extract_lines_text _ (c_string (stdout_bytes p) 0) [] tl 0 ∅
             Htext Htl Hlen).
  reflexivity.
Qed.


(** X25: [lua_execute] returns for every output.  With a command string,
    the job object and the process created, it returns a table and a
    number whatever bytes the process printed: the table holds, under the
    keys 1 to n, the lines of the text before the first NUL byte of the
    output (a NUL byte ends the table), and the number is the exit code,
    or 4294967295 when [GetExitCodeProcess] fails. *)
Theorem lua_execute_any_output (rt : lua_runtime) (os : exec_host)
    (cmd : list Z) (rest : list lua_value) (p : process) :
  create_job os = true ->
  launch os cmd (exec_timeout rt (LString cmd :: rest)) = Launched p ->
  exists tbl : gmap Z (list Z),
    lua_execute rt os (LString cmd :: rest)
    = Some [LTable tbl; LNumber (default 4294967295 (exit_code p))]
    /\ forall i : Z,
        tbl !! i
        = if (0 <? i)
             && (i <=? Z.of_nat
                         (length (lines (c_string (stdout_bytes p) 0))))
          then lines (c_string (stdout_bytes p) 0) !! Z.to_nat (i - 1)
          else None.
Proof.
  intros Hjob Hlaunch. eexists. split.
  - now apply lua_execute_launched.
  - intros i. rewrite number_from_lookup, lookup_empty.
    replace (i - 0 - 1) with (i - 1) by lia.
    destruct ((0 <? i) && _); reflexivity.
Qed.

Lemma lua_execute_any_output_witness :
  exists tbl : gmap Z (list Z),
    lua_execute plain_runtime
      (mk_exec_host true
         (fun _ _ => Launched (mk_process [0x61; 10; 0x62; 0; 0x63; 10; 0x64]
                                          None)))
      [LString [0x78]]
    = Some [LTable tbl; LNumber 4294967295]
    /\ tbl !! 1 = Some [0x61] /\ tbl !! 2 = Some [0x62] /\ tbl !! 3 = None.
Proof.
  destruct (lua_execute_any_output plain_runtime
              (mk_exec_host true
                 (fun _ _ => Launched (mk_process
                                         [0x61; 10; 0x62; 0; 0x63; 10; 0x64]
                                         None)))
              [0x78] []
              (mk_process [0x61; 10; 0x62; 0; 0x63; 10; 0x64] None))
    as (tbl & Hrun & Hkeys); [reflexivity|reflexivity|].
  exists tbl. split; [exact Hrun|]. rewrite !Hkeys. repeat split.
Defined.

Lemma pieces_facts (s : list Z) :
  concat (fst (pieces s) :: snd (pieces s))
  = List.filter (fun c => negb (is_eol c)) s
  /\ Forall (Forall (fun c => is_eol c = false))
            (fst (pieces s) :: snd (pieces s)).
Proof.
  induction s as [|c s [IH1 IH2]]; cbn [pieces List.filter].
  - split; [reflexivity|repeat constructor].
  - destruct (pieces s) as [p ps]. cbn [fst snd] in *.
    destruct (is_eol c) eqn:E; cbn [negb fst snd].
    + split; [exact IH1|]. constructor; [constructor|exact IH2].
    + cbn [concat app] in *. rewrite <- IH1. split; [reflexivity|].
      inversion IH2 as [|? ? Hp Hps]; subst.
      constructor; [now constructor|exact Hps].
Qed.

Lemma concat_nonempty (ls : list (list Z)) :
  concat (List.filter nonempty ls) = concat ls.
Proof.
  induction ls as [|l ls IH]; [reflexivity|]. cbn [List.filter].
  destruct l as [|c l]; cbn [nonempty concat app]; [exact IH|].
  now rewrite IH.
Qed.

Lemma lines_facts (s : list Z) :
  concat (lines s) = List.filter (fun c => negb (is_eol c)) s
  /\ Forall (Forall (fun c => is_eol c = false)) (lines s)
  /\ Forall (fun l => l <> []) (tail (lines s)).
Proof.
  rewrite lines_kept. destruct (pieces_facts s) as [Hcat Hall].
  cbn [concat tail] in *. rewrite concat_nonempty. split; [exact Hcat|].
  inversion Hall as [|? ? Hp Hps]; subst. split.
  - constructor; [exact Hp|].
    apply List.Forall_forall. intros l Hl. apply filter_In in Hl as [Hl _].
    revert l Hl. now apply List.Forall_forall.
  - apply List.Forall_forall. intros l Hl. apply filter_In in Hl as [_ Hl].
    now destruct l.
Qed.

(** X26: the table loses nothing but line ends.  For every launched
    call the table is filled from a list of lines, in order under the keys
    from 1 on, such that: there is at least one line; no line holds a CR
    or LF; no line after the first is empty; and the lines put together
    are the text before the first NUL byte of the output with its CR and
    LF bytes taken out. *)
Theorem lua_execute_table_content (rt : lua_runtime) (os : exec_host)
    (cmd : list Z) (rest : list lua_value) (p : process) :
  create_job os = true ->
  launch os cmd (exec_timeout rt (LString cmd :: rest)) = Launched p ->
  exists (ls : list (list Z)) (code : Z),
    lua_execute rt os (LString cmd :: rest)
    = Some [LTable (number_from 0 ls ∅); LNumber code]
    /\ ls <> []
    /\ Forall (Forall (fun c => is_eol c = false)) ls
    /\ Forall (fun l => l <> []) (tail ls)
    /\ concat ls
       = List.filter (fun c => negb (is_eol c)) (c_string (stdout_bytes p) 0).
Proof.
  intros Hjob Hlaunch.
  exists (lines (c_string (stdout_bytes p) 0)),
         (default 4294967295 (exit_code p)).
  split; [now apply lua_execute_launched|].
  destruct (lines_facts (c_string (stdout_bytes p) 0)) as (Hcat & Hall & Htl).
  split; [rewrite lines_kept; discriminate|]. tauto.
Qed.

Lemma lua_execute_table_content_witness :
  exists (ls : list (list Z)) (code : Z),
    lua_execute plain_runtime (os_printing [0x61; 13; 10; 13; 10; 0x62] 0)
                [LString [0x78]]
    = Some [LTable (number_from 0 ls ∅); LNumber code]
    /\ concat ls = [0x61; 0x62].
Proof.
  destruct (lua_execute_table_content plain_runtime
              (os_printing [0x61; 13; 10; 13; 10; 0x62] 0) [0x78] []
              (mk_process [0x61; 13; 10; 13; 10; 0x62] (Some 0)))
    as (ls & code & Hrun & _ & _ & _ & Hcat); [reflexivity|reflexivity|].
  exists ls, code. split; [exact Hrun|]. rewrite Hcat. reflexivity.
Defined.

End LuaOutputFacts.

(** ** Word break information *)

Module GeneratorFacts.
Import Generators.












End GeneratorFacts.

(** ** The capability probe, with a module resident *)

Lemma check_c1_support_loop_found (names : list string) (g : globals)
    (h : host_console) :
  (exists name, In name names /\ resident h name = true) ->
  check_c1_support_loop names g h = false.
Proof.
  induction names as [|name names IH]; intros (found & Hin & Hres);
    [destruct Hin|].
  cbn [check_c1_support_loop].
  destruct (resident h name) eqn:E; [reflexivity|].
  destruct Hin as [<-|Hin]; [congruence|].
  apply IH. exists found. tauto.
Qed.

(** X29: when one of the five known modules is resident in the process,
    [check_c1_support] switches interpretation off whatever the setting
    is, and it changes nothing else of the session. *)
Theorem check_c1_support_module_resident (g : globals) (h : host_console)
    (t : win_terminal) :
  (exists name, In name dll_names /\ resident h name = true) ->
  check_c1_support g h t
  = mk_term (t_in t) (t_out t) (m_state t) false.
Proof.
  intros Hfound. unfold check_c1_support.
  now rewrite check_c1_support_loop_found.
Qed.

Lemma check_c1_support_module_resident_witness :
  let h := mk_host 0 0 7 80 300 0 24 [] []
             (fun name => String.eqb name "ansi64.dll") in
  m_enable_c1 (check_c1_support (mk_globals true false 0 O) h
                                (session 7 true))
  = false.
Proof.
  intros h. rewrite check_c1_support_module_resident; [reflexivity|].
  exists "ansi64.dll"%string. split; [|reflexivity].
  do 4 right. now left.
Defined.
